(** * Session custody and the GitHub linking callback of SwipingForJobs

    A shallow embedding of [frontend/src/sessionManager.js] (the
    [SessionManager] class that keeps token, user snapshot and expiry in
    [localStorage]) and of the [GitHubCallback] component (the OAuth
    callback that reads the handshake record from [sessionStorage]).

    Modelling choices.
    - [localStorage] and [sessionStorage] are finite maps from string keys
      to string values; [getItem] of a missing key is [None] (JS [null]).
      The methods are modelled twice.  [setSession], [updateUser] and
      [checkAndRefreshSession] are the methods over a storage that accepts
      every write, where [setItem] does not throw and the [catch] of
      [setSession] is not entered.  [setSession_in], [updateUser_in] and
      [checkAndRefreshSession_in] are the same methods over a storage that
      may refuse a write, [setItem] throwing then: the statements on what a
      reader can find after an interrupted write are about these.
    - The values that reach the session manager come from [response.json()]
      or are [undefined] (a missing property): they are JSON data, type
      [json], and [option json] where [undefined] can occur.  Numbers are
      the integers; a JSON text with a fraction or an exponent is outside
      the model and is rejected by [JSON_parse].  An object is the list of
      its properties in insertion order, with distinct keys ([unique_keys]).
    - [JSON.stringify] and [JSON.parse] are written out, with the escapes of
      ECMAScript's QuoteJSONString.  A string is its sequence of bytes.
    - [Date.parse] depends on the engine and on the local time zone: it is a
      parameter [Date_parse] of the development ([None] is an Invalid Date,
      whose [getTime()] is [NaN]); [iso_date_parse] is an instance for the
      UTC date-time format of ECMAScript.  Every [new Date()] is an explicit
      clock reading in milliseconds since the epoch.
    - [fetch] is the environment: a run is given the outcome of each request
      it may make, and returns the requests it made. *)

From Stdlib Require Import ZArith Ascii String List Bool Lia.
From Stdlib Require Import DecimalString DecimalN DecimalFacts.
From stdpp Require Import gmap strings list.

Local Open Scope Z_scope.

(** ** JSON data *)

#[local] Set Warnings "-register-all".

Inductive json : Type :=
| JNull
| JBool (b : bool)
| JNum (z : Z)
| JStr (s : string)
| JArr (l : list json)
| JObj (l : list (string * json)).

(** [undefined] is [None]. *)
Abbreviation jsval := (option json).

(** ToBoolean. *)
Definition truthy (v : json) : bool :=
  match v with
  | JNull => false
  | JBool b => b
  | JNum z => negb (z =? 0)
  | JStr s => negb (String.eqb s "")
  | JArr _ | JObj _ => true
  end.

Definition truthy_val (v : jsval) : bool :=
  match v with
  | None => false
  | Some j => truthy j
  end.

(** ToBoolean of what [getItem] returns: [null] and the empty string are
    falsy. *)
Definition truthy_item (o : option string) : bool :=
  match o with
  | None => false
  | Some s => negb (String.eqb s "")
  end.

Fixpoint assoc (k : string) (l : list (string * json)) : option json :=
  match l with
  | [] => None
  | (k', v) :: l' => if String.eqb k k' then Some v else assoc k l'
  end.

(** Property read [v.k] on a value that is not [null]: objects look the key
    up, every other value has no such property of its own. *)
Definition get_prop (v : json) (k : string) : jsval :=
  match v with
  | JObj l => assoc k l
  | _ => None
  end.

Fixpoint distinct (l : list string) : bool :=
  match l with
  | [] => true
  | k :: l' => negb (existsb (String.eqb k) l') && distinct l'
  end.

(** Keys of a JS object are distinct, at every depth. *)
Fixpoint unique_keys (v : json) : bool :=
  match v with
  | JArr l => forallb unique_keys l
  | JObj l => distinct (map fst l) && forallb (fun kv => unique_keys (snd kv)) l
  | _ => true
  end.

(** ** Numbers as decimal text *)

Definition string_of_N (n : N) : string := NilZero.string_of_uint (N.to_uint n).

Definition string_of_Z (z : Z) : string :=
  if z <? 0 then String "-" (string_of_N (Z.to_N (- z))) else string_of_N (Z.to_N z).

Definition is_digit (c : ascii) : bool :=
  let n := nat_of_ascii c in (48 <=? n)%nat && (n <=? 57)%nat.

Fixpoint span_digits (s : string) : string * string :=
  match s with
  | String c r =>
      if is_digit c then let '(d, r') := span_digits r in (String c d, r')
      else (EmptyString, s)
  | EmptyString => (EmptyString, EmptyString)
  end.

(** JSON's [int]: a zero, or a digit from 1 to 9 and more digits. *)
Definition parse_nat (s : string) : option (N * string) :=
  let '(d, r) := span_digits s in
  match d with
  | EmptyString => None
  | String c d' =>
      if Ascii.eqb c "0" && negb (String.eqb d' "") then None
      else match NilZero.uint_of_string d with
           | Some u => Some (N.of_uint u, r)
           | None => None
           end
  end.

Definition parse_number (s : string) : option (json * string) :=
  match s with
  | String c r =>
      if Ascii.eqb c "-" then
        match parse_nat r with
        | Some (n, r') => Some (JNum (- Z.of_N n), r')
        | None => None
        end
      else
        match parse_nat s with
        | Some (n, r') => Some (JNum (Z.of_N n), r')
        | None => None
        end
  | EmptyString => None
  end.

(** ** Strings in JSON text *)

Definition dquote : ascii := ascii_of_N 34.

Definition hex_digit (n : N) : ascii :=
  if (n <? 10)%N then ascii_of_N (48 + n) else ascii_of_N (87 + n).

Definition hex_value (c : ascii) : option N :=
  let n := N_of_ascii c in
  if (48 <=? n)%N && (n <=? 57)%N then Some (n - 48)%N
  else if (97 <=? n)%N && (n <=? 102)%N then Some (n - 87)%N
  else if (65 <=? n)%N && (n <=? 70)%N then Some (n - 55)%N
  else None.

(** QuoteJSONString, one character. *)
Definition quote_char (c : ascii) : string :=
  let n := N_of_ascii c in
  if (n =? 34)%N then String "\" (String dquote EmptyString)
  else if (n =? 92)%N then "\\"
  else if (n =? 8)%N then "\b"
  else if (n =? 9)%N then "\t"
  else if (n =? 10)%N then "\n"
  else if (n =? 12)%N then "\f"
  else if (n =? 13)%N then "\r"
  else if (n <? 32)%N then
    String "\" (String "u" (String "0" (String "0"
      (String (hex_digit (n / 16)) (String (hex_digit (n mod 16)) EmptyString)))))
  else String c EmptyString.

Fixpoint quote_chars (s : string) : string :=
  match s with
  | EmptyString => EmptyString
  | String c r => quote_char c +:+ quote_chars r
  end.

Definition quote (s : string) : string :=
  String dquote (quote_chars s +:+ String dquote EmptyString).

(** A [\uXXXX] escape as bytes: one byte below U+0080, else its UTF-8 form. *)
Definition bytes_of_code (n : N) (tail : string) : string :=
  if (n <? 128)%N then String (ascii_of_N n) tail
  else if (n <? 2048)%N then
    String (ascii_of_N (192 + n / 64)) (String (ascii_of_N (128 + n mod 64)) tail)
  else
    String (ascii_of_N (224 + n / 4096))
      (String (ascii_of_N (128 + (n / 64) mod 64))
         (String (ascii_of_N (128 + n mod 64)) tail)).

Definition unescape (c : ascii) : option ascii :=
  let n := N_of_ascii c in
  if (n =? 34)%N then Some c
  else if (n =? 92)%N then Some c
  else if (n =? 47)%N then Some c
  else if (n =? 98)%N then Some (ascii_of_N 8)
  else if (n =? 116)%N then Some (ascii_of_N 9)
  else if (n =? 110)%N then Some (ascii_of_N 10)
  else if (n =? 102)%N then Some (ascii_of_N 12)
  else if (n =? 114)%N then Some (ascii_of_N 13)
  else None.

(** The characters of a string literal after its opening quote, up to and
    including the closing quote.  A raw control character is an error. *)
Fixpoint parse_chars (s : string) : option (string * string) :=
  match s with
  | EmptyString => None
  | String c r =>
      let n := N_of_ascii c in
      if (n =? 34)%N then Some (EmptyString, r)
      else if (n =? 92)%N then
        match r with
        | EmptyString => None
        | String e r1 =>
            if (N_of_ascii e =? 117)%N then
              match r1 with
              | String h1 (String h2 (String h3 (String h4 r2))) =>
                  match hex_value h1, hex_value h2, hex_value h3, hex_value h4 with
                  | Some a, Some b, Some c', Some d =>
                      match parse_chars r2 with
                      | Some (t, r3) =>
                          Some (bytes_of_code (((a * 16 + b) * 16 + c') * 16 + d)%N t, r3)
                      | None => None
                      end
                  | _, _, _, _ => None
                  end
              | _ => None
              end
            else
              match unescape e with
              | Some x =>
                  match parse_chars r1 with
                  | Some (t, r2) => Some (String x t, r2)
                  | None => None
                  end
              | None => None
              end
        end
      else if (n <? 32)%N then None
      else
        match parse_chars r with
        | Some (t, r1) => Some (String c t, r1)
        | None => None
        end
  end.

(** ** JSON.stringify and JSON.parse *)

Fixpoint join_comma (l : list string) : string :=
  match l with
  | [] => EmptyString
  | x :: l' =>
      match l' with
      | [] => x
      | _ :: _ => x +:+ "," +:+ join_comma l'
      end
  end.

(** [JSON.stringify] of JSON data, with no indentation. *)
Fixpoint JSON_stringify (v : json) : string :=
  match v with
  | JNull => "null"
  | JBool true => "true"
  | JBool false => "false"
  | JNum z => string_of_Z z
  | JStr s => quote s
  | JArr l => "[" +:+ join_comma (map JSON_stringify l) +:+ "]"
  | JObj l =>
      "{" +:+
      join_comma (map (fun kv => quote (fst kv) +:+ ":" +:+ JSON_stringify (snd kv)) l)
      +:+ "}"
  end.

(** [JSON.stringify(undefined)] is [undefined]. *)
Definition JSON_stringify_val (v : jsval) : option string :=
  match v with
  | None => None
  | Some j => Some (JSON_stringify j)
  end.

Definition is_ws (c : ascii) : bool :=
  let n := N_of_ascii c in
  (n =? 32)%N || (n =? 9)%N || (n =? 10)%N || (n =? 13)%N.

Fixpoint skip_ws (s : string) : string :=
  match s with
  | String c r => if is_ws c then skip_ws r else s
  | EmptyString => s
  end.

Fixpoint strip_prefix (p s : string) : option string :=
  match p with
  | EmptyString => Some s
  | String a p' =>
      match s with
      | String b s' => if Ascii.eqb a b then strip_prefix p' s' else None
      | EmptyString => None
      end
  end.

(** [obj[k] = v] while an object literal is read: a key seen before keeps its
    place and takes the new value. *)
Fixpoint obj_set (k : string) (v : json) (l : list (string * json)) : list (string * json) :=
  match l with
  | [] => [(k, v)]
  | (k', v') :: l' =>
      if String.eqb k k' then (k', v) :: l' else (k', v') :: obj_set k v l'
  end.

Definition obj_of_members (ms : list (string * json)) : list (string * json) :=
  fold_left (fun acc kv => obj_set (fst kv) (snd kv) acc) ms [].

(** The recursive descent of [JSON.parse], one production at a time; the
    productions it calls are parameters. *)
Definition parse_value_with
    (elements : string -> option (list json * string))
    (members : string -> option (list (string * json) * string))
    (s : string) : option (json * string) :=
  match skip_ws s with
  | EmptyString => None
  | String c r as s' =>
      if Ascii.eqb c "n" then
        match strip_prefix "ull" r with Some r' => Some (JNull, r') | None => None end
      else if Ascii.eqb c "t" then
        match strip_prefix "rue" r with Some r' => Some (JBool true, r') | None => None end
      else if Ascii.eqb c "f" then
        match strip_prefix "alse" r with Some r' => Some (JBool false, r') | None => None end
      else if Ascii.eqb c dquote then
        match parse_chars r with Some (t, r') => Some (JStr t, r') | None => None end
      else if Ascii.eqb c "[" then
        match skip_ws r with
        | String c' r' =>
            if Ascii.eqb c' "]" then Some (JArr [], r')
            else match elements r with
                 | Some (l, r'') => Some (JArr l, r'')
                 | None => None
                 end
        | EmptyString => None
        end
      else if Ascii.eqb c "{" then
        match skip_ws r with
        | String c' r' =>
            if Ascii.eqb c' "}" then Some (JObj [], r')
            else match members r with
                 | Some (ms, r'') => Some (JObj (obj_of_members ms), r'')
                 | None => None
                 end
        | EmptyString => None
        end
      else parse_number s'
  end.

Definition parse_elements_with
    (value : string -> option (json * string))
    (elements : string -> option (list json * string))
    (s : string) : option (list json * string) :=
  match value s with
  | None => None
  | Some (v, r) =>
      match skip_ws r with
      | String c r' =>
          if Ascii.eqb c "," then
            match elements r' with
            | Some (vs, r'') => Some (v :: vs, r'')
            | None => None
            end
          else if Ascii.eqb c "]" then Some ([v], r')
          else None
      | EmptyString => None
      end
  end.

Definition parse_members_with
    (value : string -> option (json * string))
    (members : string -> option (list (string * json) * string))
    (s : string) : option (list (string * json) * string) :=
  match skip_ws s with
  | String q r =>
      if Ascii.eqb q dquote then
        match parse_chars r with
        | None => None
        | Some (k, r1) =>
            match skip_ws r1 with
            | String c r2 =>
                if Ascii.eqb c ":" then
                  match value r2 with
                  | None => None
                  | Some (v, r3) =>
                      match skip_ws r3 with
                      | String c' r4 =>
                          if Ascii.eqb c' "," then
                            match members r4 with
                            | Some (ms, r5) => Some ((k, v) :: ms, r5)
                            | None => None
                            end
                          else if Ascii.eqb c' "}" then Some ([(k, v)], r4)
                          else None
                      | EmptyString => None
                      end
                  end
                else None
            | EmptyString => None
            end
        end
      else None
  | EmptyString => None
  end.

(** [fuel] bounds the nesting and the number of elements; [JSON_parse] below
    gives enough of it. *)
Fixpoint parse_value (fuel : nat) (s : string) {struct fuel} : option (json * string) :=
  match fuel with
  | O => None
  | S n => parse_value_with (parse_elements n) (parse_members n) s
  end
with parse_elements (fuel : nat) (s : string) {struct fuel} : option (list json * string) :=
  match fuel with
  | O => None
  | S n => parse_elements_with (parse_value n) (parse_elements n) s
  end
with parse_members (fuel : nat) (s : string) {struct fuel}
  : option (list (string * json) * string) :=
  match fuel with
  | O => None
  | S n => parse_members_with (parse_value n) (parse_members n) s
  end.

(** [JSON.parse]: [None] when it throws a SyntaxError. *)
Definition JSON_parse (s : string) : option json :=
  match parse_value (S (String.length s)) s with
  | Some (v, r) =>
      match skip_ws r with
      | EmptyString => Some v
      | String _ _ => None
      end
  | None => None
  end.

(** ** ToString, as [setItem] applies it to its value argument *)

Fixpoint js_to_string (v : json) : string :=
  match v with
  | JNull => "null"
  | JBool true => "true"
  | JBool false => "false"
  | JNum z => string_of_Z z
  | JStr s => s
  | JArr l =>
      join_comma
        (map (fun x => match x with JNull => EmptyString | _ => js_to_string x end) l)
  | JObj _ => "[object Object]"
  end.

Definition to_string_val (v : jsval) : string :=
  match v with
  | None => "undefined"
  | Some j => js_to_string j
  end.

(** ToString of a string that may be [undefined]. *)
Definition to_string_text (o : option string) : string :=
  match o with
  | None => "undefined"
  | Some s => s
  end.

(** ** An instance of [Date.parse]: the UTC forms of the date-time format *)

Definition digit_val (c : ascii) : option Z :=
  if is_digit c then Some (Z.of_N (N_of_ascii c) - 48) else None.

Fixpoint read_digits (n : nat) (s : string) (acc : Z) : option (Z * string) :=
  match n with
  | O => Some (acc, s)
  | S n' =>
      match s with
      | String c r =>
          match digit_val c with
          | Some d => read_digits n' r (acc * 10 + d)
          | None => None
          end
      | EmptyString => None
      end
  end.

Definition expect (c : ascii) (s : string) : option string :=
  match s with
  | String c' r => if Ascii.eqb c c' then Some r else None
  | EmptyString => None
  end.

Definition is_leap (y : Z) : bool :=
  ((y mod 4 =? 0) && negb (y mod 100 =? 0)) || (y mod 400 =? 0).

Definition days_in_month (y m : Z) : Z :=
  if m =? 2 then (if is_leap y then 29 else 28)
  else if (m =? 4) || (m =? 6) || (m =? 9) || (m =? 11) then 30
  else 31.

(** Days from 1970-01-01 to the civil date [y]-[m]-[d]. *)
Definition days_from_civil (y m d : Z) : Z :=
  let y' := if m <=? 2 then y - 1 else y in
  let era := y' / 400 in
  let yoe := y' - era * 400 in
  let doy := (153 * (if 2 <? m then m - 3 else m + 9) + 2) / 5 + d - 1 in
  let doe := yoe * 365 + yoe / 4 - yoe / 100 + doy in
  era * 146097 + doe - 719468.

Definition utc_millis (y m d hh mm ss ms : Z) : option Z :=
  if (1 <=? m) && (m <=? 12) && (1 <=? d) && (d <=? days_in_month y m)
     && (hh <=? 23) && (mm <=? 59) && (ss <=? 59)
  then Some ((((days_from_civil y m d * 24 + hh) * 60 + mm) * 60 + ss) * 1000 + ms)
  else None.

(** Reads [YYYY-MM-DD] and [YYYY-MM-DDTHH:mm:ss] with an optional [.sss], both
    followed by [Z]; every other text is an Invalid Date for this instance. *)
Definition iso_date_parse (s : string) : option Z :=
  '(y, s) ← read_digits 4 s 0;
  s ← expect "-" s;
  '(m, s) ← read_digits 2 s 0;
  s ← expect "-" s;
  '(d, s) ← read_digits 2 s 0;
  match s with
  | EmptyString => utc_millis y m d 0 0 0 0
  | _ =>
      s ← expect "T" s;
      '(hh, s) ← read_digits 2 s 0;
      s ← expect ":" s;
      '(mm, s) ← read_digits 2 s 0;
      s ← expect ":" s;
      '(ss, s) ← read_digits 2 s 0;
      '(ms, s) ← match expect "." s with
                 | Some s' => read_digits 3 s' 0
                 | None => Some (0, s)
                 end;
      s ← expect "Z" s;
      match s with
      | EmptyString => utc_millis y m d hh mm ss ms
      | String _ _ => None
      end
  end.

(** ** Storage *)

Abbreviation Storage := (gmap string string).

Definition getItem (st : Storage) (k : string) : option string := st !! k.
Definition setItem (st : Storage) (k v : string) : Storage := <[k := v]> st.
Definition removeItem (st : Storage) (k : string) : Storage := delete k st.

(** [setItem] throws when the storage refuses the write (a
    QuotaExceededError).  Whether a write is accepted is decided by the
    storage, from what it holds and from the entry to be written: an
    [Accepts] is that decision, and [setItem_in] is [setItem] under it,
    [None] being the exception. *)
Abbreviation Accepts := (Storage -> string -> string -> bool).

Definition setItem_in (accepts : Accepts) (st : Storage) (k v : string)
  : option Storage :=
  if accepts st k v then Some (setItem st k v) else None.


(** A storage with a quota on the characters of its keys and values: a
    write is accepted when the storage with the new entry is within it. *)
Definition storage_size (st : Storage) : nat :=
  map_fold (fun k v n => (String.length k + String.length v + n)%nat) 0%nat st.

Definition within_quota (quota : nat) : Accepts :=
  fun st k v => (storage_size (setItem st k v) <=? quota)%nat.

(** ** fetch *)

(** What [await fetch(...)] gives: a rejection (no response at all), or a
    response with its status and what [await response.json()] yields
    ([None] when the body is not JSON and the call rejects). *)
Inductive FetchResult : Type :=
| NetworkError
| Response (status : Z) (body : option json).

(** [response.ok]: a status from 200 to 299. *)
Definition ok (status : Z) : bool := (200 <=? status) && (status <=? 299).

Inductive Endpoint : Type :=
| AuthMe
| AuthRefresh
| GithubCallbackExchange
| GithubLink.

Definition Endpoint_eqb (a b : Endpoint) : bool :=
  match a, b with
  | AuthMe, AuthMe | AuthRefresh, AuthRefresh
  | GithubCallbackExchange, GithubCallbackExchange | GithubLink, GithubLink => true
  | _, _ => false
  end.

Definition called (e : Endpoint) (calls : list Endpoint) : bool :=
  existsb (Endpoint_eqb e) calls.

(** A JS number that may be [NaN]. *)
Inductive jsnum : Type :=
| NaN
| Num (z : Z).

(** [a < b] on numbers: every comparison with [NaN] is false. *)
Definition num_ltb (a : jsnum) (b : Z) : bool :=
  match a with
  | NaN => false
  | Num z => z <? b
  end.

(** ** sessionManager.js *)

Module SessionManager.
Section SessionManager.

(** [new Date(s).getTime()]: [None] is [NaN]. *)
Variable Date_parse : string -> option Z.

Definition tokenKey : string := "swipingforjobs_session_token".
Definition userKey : string := "swipingforjobs_user_data".
Definition expiryKey : string := "swipingforjobs_session_expiry".

(** [setSession(sessionToken, userData, expiresAt)]: the verdict and the
    storage it leaves, when the storage accepts the three writes;
    [setSession_in] below is the method with its [catch]. *)
Definition setSession (st : Storage) (sessionToken userData expiresAt : jsval)
  : bool * Storage :=
  if negb (truthy_val sessionToken) || negb (truthy_val userData)
     || negb (truthy_val expiresAt)
  then (false, st)
  else
    let st := setItem st tokenKey (to_string_val sessionToken) in
    let st := setItem st userKey (to_string_text (JSON_stringify_val userData)) in
    let st := setItem st expiryKey (to_string_val expiresAt) in
    (true, st).

Definition getToken (st : Storage) : option string := getItem st tokenKey.

(** [getUser()]: [None] is [null]. *)
Definition getUser (st : Storage) : jsval :=
  let userData := getItem st userKey in
  if negb (truthy_item userData) then None
  else
    match JSON_parse (default EmptyString userData) with
    | None => None
    | Some parsed =>
        if negb (truthy parsed) || negb (truthy_val (get_prop parsed "id"))
           || negb (truthy_val (get_prop parsed "email"))
        then None
        else Some parsed
    end.

Definition getExpiry (st : Storage) : option string := getItem st expiryKey.

Definition isSessionValid (st : Storage) (now : Z) : bool :=
  let token := getToken st in
  let expiry := getExpiry st in
  let user := getUser st in
  if negb (truthy_item token) || negb (truthy_item expiry) || negb (bool_decide (is_Some user))
  then false
  else
    match Date_parse (default EmptyString expiry) with
    | None => false
    | Some expiryDate => now <? expiryDate
    end.

Definition clearSession (st : Storage) : Storage :=
  removeItem (removeItem (removeItem st tokenKey) userKey) expiryKey.

Definition getAuthHeaders (st : Storage) : list (string * string) :=
  match getToken st with
  | Some token =>
      if String.eqb token EmptyString then []
      else [("Authorization", "Bearer " +:+ token); ("Content-Type", "application/json")]
  | None => []
  end.

Definition updateUser (st : Storage) (userData : jsval) : Storage :=
  setItem st userKey (to_string_text (JSON_stringify_val userData)).

Definition isLoggedIn (st : Storage) (now : Z) : bool :=
  isSessionValid st now && bool_decide (is_Some (getUser st)).

(** The environment of one [checkAndRefreshSession()] run: the outcome of
    the request to [/auth/me] and of the request to [/auth/refresh] (read
    only if the run makes it), the clock when local validity is checked
    and the clock once the first request has settled. *)
Record RunEnv : Type := {
  me_result : FetchResult;
  refresh_result : FetchResult;
  now : Z;
  later : Z
}.

Record Outcome : Type := {
  verdict : bool;
  store : Storage;
  calls : list Endpoint
}.

(** The inner [try] block: what a settled refresh request does to the
    storage.  Every failure in it is caught and only logged. *)
Definition applyRefresh (st : Storage) (r : FetchResult) : Storage :=
  match r with
  | NetworkError => st
  | Response status body =>
      if ok status then
        match body with
        | None | Some JNull => st
        | Some refreshData =>
            match get_prop refreshData "session" with
            | None | Some JNull => st
            | Some session =>
                let currentUser := getUser st in
                snd (setSession st (get_prop session "token") currentUser
                       (get_prop session "expires_at"))
            end
        end
      else st
  end.

Definition checkAndRefreshSession (st : Storage) (env : RunEnv) : Outcome :=
  let token := getToken st in
  let user := getUser st in
  if negb (truthy_item token) || negb (bool_decide (is_Some user)) then
    {| verdict := false; store := clearSession st; calls := [] |}
  else if negb (isSessionValid st (now env)) then
    {| verdict := false; store := clearSession st; calls := [] |}
  else
    let on_error :=
      {| verdict := isSessionValid st (later env); store := st; calls := [AuthMe] |} in
    match me_result env with
    | NetworkError => on_error
    | Response status body =>
        if ok status then
          match body with
          | None | Some JNull => on_error
          | Some data =>
              let st := updateUser st (get_prop data "user") in
              let expiry := getExpiry st in
              if truthy_item expiry then
                match Date_parse (default EmptyString expiry) with
                | Some expiryDate =>
                    let timeUntilExpiry := expiryDate - later env in
                    if timeUntilExpiry <? 2 * 60 * 60 * 1000 then
                      {| verdict := true;
                         store := applyRefresh st (refresh_result env);
                         calls := [AuthMe; AuthRefresh] |}
                    else {| verdict := true; store := st; calls := [AuthMe] |}
                | None => {| verdict := true; store := st; calls := [AuthMe] |}
                end
              else {| verdict := true; store := st; calls := [AuthMe] |}
          end
        else if status =? 401 then
          {| verdict := false; store := clearSession st; calls := [AuthMe] |}
        else
          {| verdict := isSessionValid st (later env); store := st; calls := [AuthMe] |}
    end.

(** [getTimeUntilExpiry()], in minutes. *)
Definition getTimeUntilExpiry (st : Storage) (now : Z) : jsnum :=
  let expiry := getExpiry st in
  if negb (truthy_item expiry) then Num 0
  else
    match Date_parse (default EmptyString expiry) with
    | None => NaN
    | Some expiryDate =>
        let timeUntilExpiry := expiryDate - now in
        Num (Z.max 0 (timeUntilExpiry / (1000 * 60)))
    end.

Definition isSessionExpiringSoon (st : Storage) (now : Z) : bool :=
  num_ltb (getTimeUntilExpiry st now) 30.

(** *** A storage that may refuse a write

    The definitions above are the methods over a storage that accepts every
    write.  Below are the writing methods over a storage that decides by
    [accepts]; with [accepts_all] they are the ones above. *)

(** [setSession]: the [try] block stops at the first [setItem] that throws,
    and the [catch] returns false; the writes made before it stay. *)
Definition setSession_in (accepts : Accepts) (st : Storage)
    (sessionToken userData expiresAt : jsval) : bool * Storage :=
  if negb (truthy_val sessionToken) || negb (truthy_val userData)
     || negb (truthy_val expiresAt)
  then (false, st)
  else
    match setItem_in accepts st tokenKey (to_string_val sessionToken) with
    | None => (false, st)
    | Some st1 =>
        match setItem_in accepts st1 userKey
                (to_string_text (JSON_stringify_val userData)) with
        | None => (false, st1)
        | Some st2 =>
            match setItem_in accepts st2 expiryKey (to_string_val expiresAt) with
            | None => (false, st2)
            | Some st3 => (true, st3)
            end
        end
    end.

(** [updateUser] has no [try]: [None] is the exception of [setItem]. *)
Definition updateUser_in (accepts : Accepts) (st : Storage) (userData : jsval)
  : option Storage :=
  setItem_in accepts st userKey (to_string_text (JSON_stringify_val userData)).

(** The inner [try] block of [checkAndRefreshSession]; [setSession] catches
    what its writes throw. *)
Definition applyRefresh_in (accepts : Accepts) (st : Storage) (r : FetchResult)
  : Storage :=
  match r with
  | NetworkError => st
  | Response status body =>
      if ok status then
        match body with
        | None | Some JNull => st
        | Some refreshData =>
            match get_prop refreshData "session" with
            | None | Some JNull => st
            | Some session =>
                let currentUser := getUser st in
                snd (setSession_in accepts st (get_prop session "token") currentUser
                       (get_prop session "expires_at"))
            end
        end
      else st
  end.

(** [checkAndRefreshSession]: an [updateUser] that throws is caught by the
    outer [catch], like a request that fails. *)
Definition checkAndRefreshSession_in (accepts : Accepts) (st : Storage)
    (env : RunEnv) : Outcome :=
  let token := getToken st in
  let user := getUser st in
  if negb (truthy_item token) || negb (bool_decide (is_Some user)) then
    {| verdict := false; store := clearSession st; calls := [] |}
  else if negb (isSessionValid st (now env)) then
    {| verdict := false; store := clearSession st; calls := [] |}
  else
    let on_error :=
      {| verdict := isSessionValid st (later env); store := st; calls := [AuthMe] |} in
    match me_result env with
    | NetworkError => on_error
    | Response status body =>
        if ok status then
          match body with
          | None | Some JNull => on_error
          | Some data =>
              match updateUser_in accepts st (get_prop data "user") with
              | None => on_error
              | Some st =>
                  let expiry := getExpiry st in
                  if truthy_item expiry then
                    match Date_parse (default EmptyString expiry) with
                    | Some expiryDate =>
                        let timeUntilExpiry := expiryDate - later env in
                        if timeUntilExpiry <? 2 * 60 * 60 * 1000 then
                          {| verdict := true;
                             store := applyRefresh_in accepts st (refresh_result env);
                             calls := [AuthMe; AuthRefresh] |}
                        else {| verdict := true; store := st; calls := [AuthMe] |}
                    | None => {| verdict := true; store := st; calls := [AuthMe] |}
                    end
                  else {| verdict := true; store := st; calls := [AuthMe] |}
              end
          end
        else if status =? 401 then
          {| verdict := false; store := clearSession st; calls := [AuthMe] |}
        else
          {| verdict := isSessionValid st (later env); store := st; calls := [AuthMe] |}
    end.

End SessionManager.
End SessionManager.

(** ** The GitHubCallback component *)

Module GitHubCallback.

Definition stateKey : string := "github_oauth_state".
Definition linkingUserKey : string := "github_linking_user_id".

(** The values [setStatus] is given; the component starts in [processing]. *)
Inductive Status : Type :=
| processing
| linking
| success
| error.

(** [searchParams.get] of [code], [state] and [error]: [None] is [null]. *)
Record Params : Type := {
  code : option string;
  state : option string;
  error_param : option string
}.

(** The outcome of the request to [/auth/github/callback] and of the request
    to [/auth/github/link], each read only if the run makes the request. *)
Record Env : Type := {
  callback_result : FetchResult;
  link_result : FetchResult
}.

(** One run of the component: the [setStatus] calls in order, the
    [sessionStorage] it leaves, the requests made, and whether the redirect
    to the profile view was scheduled. *)
Record Run : Type := {
  statuses : list Status;
  session_storage : Storage;
  calls : list Endpoint;
  redirect_scheduled : bool
}.

Definition final_status (r : Run) : Status := List.last (statuses r) processing.

Definition cleanUp (ss : Storage) : Storage :=
  removeItem (removeItem ss stateKey) linkingUserKey.

(** [linkGitHubAccount(userId, githubUser, accessToken)], entered with the
    [setStatus] calls [seen] and the requests [made] so far.  Reading
    [githubUser.id] of [undefined] or [null] throws inside the [try], before
    the request is made. *)
Definition linkGitHubAccount (ss : Storage) (seen : list Status) (made : list Endpoint)
    (githubUser : jsval) (r : FetchResult) : Run :=
  let failed (made : list Endpoint) :=
    {| statuses := seen ++ [error]; session_storage := ss; calls := made;
       redirect_scheduled := false |} in
  match githubUser with
  | None | Some JNull => failed made
  | Some _ =>
      let made := made ++ [GithubLink] in
      match r with
      | NetworkError => failed made
      | Response status body =>
          if negb (ok status) then failed made
          else
            match body with
            | None => failed made
            | Some _ =>
                {| statuses := seen ++ [success]; session_storage := cleanUp ss;
                   calls := made; redirect_scheduled := true |}
            end
      end
  end.

Definition handleGitHubCallback (p : Params) (ss : Storage) (env : Env) : Run :=
  let failed (made : list Endpoint) :=
    {| statuses := [error]; session_storage := ss; calls := made;
       redirect_scheduled := false |} in
  if truthy_item (error_param p) then failed []
  else if negb (truthy_item (code p)) then failed []
  else
    let storedState := getItem ss stateKey in
    if negb (truthy_item storedState) || negb (bool_decide (storedState = state p))
    then failed []
    else
      let linkingUserId := getItem ss linkingUserKey in
      if negb (truthy_item linkingUserId) then failed []
      else
        let made := [GithubCallbackExchange] in
        match callback_result env with
        | NetworkError => failed made
        | Response status body =>
            if negb (ok status) then failed made
            else
              match body with
              | None | Some JNull => failed made
              | Some callbackData =>
                  if truthy_val (get_prop callbackData "github_linked") then
                    {| statuses := [success]; session_storage := cleanUp ss;
                       calls := made; redirect_scheduled := true |}
                  else
                    linkGitHubAccount ss [linking] made
                      (get_prop callbackData "github_user") (link_result env)
              end
        end.

(** [handleRetry()]: the button of the error view. *)
Definition handleRetry (ss : Storage) : Storage := cleanUp ss.

End GitHubCallback.

(** ** The GitHubIntegration component: starting the handshake *)

Module GitHubIntegration.

(** What [initiateGitHubLogin()] leaves: [sessionStorage], the address the
    page is sent to ([window.location.href], [None] when it stays) and
    whether the failure alert was raised. *)
Record Started : Type := {
  session_storage : Storage;
  redirect_to : option string;
  alerted : bool
}.

(** [initiateGitHubLogin()], given the component's [userData] prop and the
    outcome of the request to [/auth/github/login].  Reading [data.state] of
    [null], or [userData.id] of [undefined] or [null], throws; the second
    throw comes after the state was stored. *)
Definition initiateGitHubLogin (ss : Storage) (userData : jsval) (r : FetchResult)
  : Started :=
  let failed (ss : Storage) :=
    {| session_storage := ss; redirect_to := None; alerted := true |} in
  match r with
  | NetworkError => failed ss
  | Response status body =>
      if ok status then
        match body with
        | None | Some JNull => failed ss
        | Some data =>
            let ss := setItem ss GitHubCallback.stateKey
                        (to_string_val (get_prop data "state")) in
            match userData with
            | None | Some JNull => failed ss
            | Some u =>
                let ss := setItem ss GitHubCallback.linkingUserKey
                            (to_string_val (get_prop u "id")) in
                {| session_storage := ss;
                   redirect_to := Some (to_string_val (get_prop data "auth_url"));
                   alerted := false |}
            end
        end
      else failed ss
  end.

End GitHubIntegration.

(** ** App.jsx: the callers of the session manager *)

(** [String(n)] for a number that may be [NaN]. *)
Definition num_to_string (n : jsnum) : string :=
  match n with
  | NaN => "NaN"
  | Num z => string_of_Z z
  end.

(** [a <= b] on numbers. *)
Definition num_leb (a : jsnum) (b : Z) : bool :=
  match a with
  | NaN => false
  | Num z => z <=? b
  end.

(** [a || d]. *)
Definition or_else (a : jsval) (d : json) : jsval :=
  if truthy_val a then a else Some d.

Module App.
Section App.

Variable Date_parse : string -> option Z.

Inductive Screen : Type :=
| loading
| login
| register
| jobs
| profile.

Record Toast : Type := {
  message : string;
  toast_type : string
}.

(** The state of the component that these handlers read or set, and
    [localStorage]. *)
Record State : Type := {
  currentScreen : Screen;
  userData : list (string * jsval);
  isAuthenticated : bool;
  initializing : bool;
  toast : option Toast;
  local_storage : Storage
}.

(** The [userData] of a logged-out component. *)
Definition blankUserData : list (string * jsval) :=
  [("id", Some JNull); ("name", Some (JStr EmptyString));
   ("email", Some (JStr EmptyString)); ("linkedinUrl", Some (JStr EmptyString));
   ("githubUrl", Some (JStr EmptyString)); ("skills", Some (JStr EmptyString));
   ("preferences", Some (JArr [])); ("resume", Some JNull);
   ("loginCode", Some (JStr EmptyString)); ("hasResume", Some (JBool false))].

Definition initialState (ls : Storage) : State :=
  {| currentScreen := loading; userData := blankUserData; isAuthenticated := false;
     initializing := true; toast := None; local_storage := ls |}.

(** The object [checkAuthStatus] passes to [setUserData]. *)
Definition restoredUserData (currentUser : json) : list (string * jsval) :=
  let field := get_prop currentUser in
  [("id", field "id"); ("name", field "name"); ("email", field "email");
   ("linkedinUrl", or_else (field "linkedin_url") (JStr EmptyString));
   ("githubUrl", or_else (field "github_url") (JStr EmptyString));
   ("portfolioUrl", or_else (field "portfolio_url") (JStr EmptyString));
   ("phoneNumber", or_else (field "phone_number") (JStr EmptyString));
   ("location", or_else (field "location") (JStr EmptyString));
   ("bio", or_else (field "bio") (JStr EmptyString));
   ("skills", or_else (field "skills") (JStr EmptyString));
   ("preferences", or_else (field "preferences") (JArr []));
   ("workMode", or_else (field "work_mode") (JStr "remote"));
   ("experienceLevel", or_else (field "experience_level") (JStr "entry"));
   ("salaryMin", field "salary_min"); ("salaryMax", field "salary_max");
   ("currency", or_else (field "currency") (JStr "USD"));
   ("resume", Some JNull);
   ("resume_filename", or_else (field "resume_filename") (JStr EmptyString));
   ("loginCode", Some (JStr EmptyString));
   ("hasResume", or_else (field "has_resume") (JBool false));
   ("linkedinData", or_else (field "linkedin_data") (JStr EmptyString));
   ("githubData", or_else (field "github_data") (JStr EmptyString));
   ("resumeProcessedData", or_else (field "resume_processed_data") (JStr EmptyString));
   ("profileCompleted", or_else (field "profile_completed") (JBool false))].

Definition showToast (s : State) (msg ty : string) : State :=
  {| currentScreen := currentScreen s; userData := userData s;
     isAuthenticated := isAuthenticated s; initializing := initializing s;
     toast := Some {| message := msg; toast_type := ty |};
     local_storage := local_storage s |}.

(** [handleLogout()]. *)
Definition handleLogout (s : State) : State :=
  {| currentScreen := login; userData := blankUserData; isAuthenticated := false;
     initializing := initializing s;
     toast := Some {| message := "Logged out successfully"; toast_type := "info" |};
     local_storage := SessionManager.clearSession (local_storage s) |}.

(** [checkAuthStatus()], run once when the component mounts: the state it
    leaves and the requests made.  Reading [currentUser.id] of [null] throws
    into the [catch], which clears the session. *)
Definition checkAuthStatus (s : State) (env : SessionManager.RunEnv)
  : State * list Endpoint :=
  let to_login (ls : Storage) :=
    {| currentScreen := login; userData := userData s; isAuthenticated := false;
       initializing := false; toast := toast s; local_storage := ls |} in
  let ls := local_storage s in
  let token := SessionManager.getToken ls in
  let user := SessionManager.getUser ls in
  if negb (truthy_item token) || negb (bool_decide (is_Some user)) then (to_login ls, [])
  else
    let r := SessionManager.checkAndRefreshSession Date_parse ls env in
    let ls := SessionManager.store r in
    if SessionManager.verdict r then
      match SessionManager.getUser ls with
      | Some currentUser =>
          ({| currentScreen := jobs; userData := restoredUserData currentUser;
              isAuthenticated := true; initializing := false; toast := toast s;
              local_storage := ls |},
           SessionManager.calls r)
      | None => (to_login (SessionManager.clearSession ls), SessionManager.calls r)
      end
    else (to_login (SessionManager.clearSession ls), SessionManager.calls r).

(** The callback of the five-minute interval.  [soon_at] and [left_at] are
    the clock readings of [isSessionExpiringSoon()] and of
    [getTimeUntilExpiry()]. *)
Definition sessionPoll (s : State) (env : SessionManager.RunEnv) (soon_at left_at : Z)
  : State * list Endpoint :=
  let r := SessionManager.checkAndRefreshSession Date_parse (local_storage s) env in
  let s' :=
    {| currentScreen := currentScreen s; userData := userData s;
       isAuthenticated := isAuthenticated s; initializing := initializing s;
       toast := toast s; local_storage := SessionManager.store r |} in
  if negb (SessionManager.verdict r) then
    (handleLogout (showToast s' "Your session has expired. Please log in again." "error"),
     SessionManager.calls r)
  else if SessionManager.isSessionExpiringSoon Date_parse (local_storage s') soon_at then
    let timeLeft := SessionManager.getTimeUntilExpiry Date_parse (local_storage s') left_at in
    (showToast s' ("Your session will expire in " +:+ num_to_string timeLeft +:+ " minutes")
       "info",
     SessionManager.calls r)
  else (s', SessionManager.calls r).

(** The callback of the one-minute interval. *)
Definition expiryWarning (s : State) (soon_at left_at : Z) : State :=
  if SessionManager.isSessionExpiringSoon Date_parse (local_storage s) soon_at then
    let timeLeft := SessionManager.getTimeUntilExpiry Date_parse (local_storage s) left_at in
    if num_leb timeLeft 5 then
      showToast s ("Session expires in " +:+ num_to_string timeLeft
                   +:+ " minutes! Activity will extend it.") "error"
    else if num_leb timeLeft 15 then
      showToast s ("Session expires in " +:+ num_to_string timeLeft +:+ " minutes") "info"
    else s
  else s.

(** The callback of the thirty-minute inactivity timer. *)
Definition inactivityTimeout (s : State) (env : SessionManager.RunEnv)
  : State * list Endpoint :=
  let r := SessionManager.checkAndRefreshSession Date_parse (local_storage s) env in
  let s' :=
    {| currentScreen := currentScreen s; userData := userData s;
       isAuthenticated := isAuthenticated s; initializing := initializing s;
       toast := toast s; local_storage := SessionManager.store r |} in
  if negb (SessionManager.verdict r) then
    (handleLogout (showToast s' "Session expired due to inactivity" "error"),
     SessionManager.calls r)
  else (s', SessionManager.calls r).

(** [handleActivity()], the listener of pointer, key, scroll and touch events,
    without the timer it re-arms.  The promise of [checkAndRefreshSession()]
    is dropped: only [localStorage] shows what the run did. *)
Definition handleActivity (s : State) (soon_at : Z) (env : SessionManager.RunEnv)
  : State * list Endpoint :=
  if SessionManager.isSessionExpiringSoon Date_parse (local_storage s) soon_at then
    let r := SessionManager.checkAndRefreshSession Date_parse (local_storage s) env in
    ({| currentScreen := currentScreen s; userData := userData s;
        isAuthenticated := isAuthenticated s; initializing := initializing s;
        toast := toast s; local_storage := SessionManager.store r |},
     SessionManager.calls r)
  else (s, []).

End App.
End App.

(** ** Notions of the statements *)

(** A snapshot has the required fields when [id] and [email] are truthy. *)
Definition has_required_fields (u : jsval) : bool :=
  match u with
  | Some j => truthy_val (get_prop j "id") && truthy_val (get_prop j "email")
  | None => false
  end.

(** The storage after a [setSession] that passes its guard. *)
Definition written (st : Storage) (sessionToken userData expiresAt : jsval) : Storage :=
  <[SessionManager.expiryKey := to_string_val expiresAt]>
    (<[SessionManager.userKey := to_string_text (JSON_stringify_val userData)]>
       (<[SessionManager.tokenKey := to_string_val sessionToken]> st)).

(** ** Sample data *)

Definition sample_user : json :=
  JObj [("id", JNum 7); ("email", JStr "ada@example.org");
        ("skills", JArr [JStr "rocq"; JStr "js"]); ("github_linked", JBool false)].

(** A storage holding a session that is valid until 2030-01-01T01:30 UTC. *)
Definition sample_storage : Storage :=
  {[ SessionManager.tokenKey := "t0";
     SessionManager.userKey := JSON_stringify sample_user;
     SessionManager.expiryKey := "2030-01-01T01:30:00Z" ]}.

(** 2030-01-01T00:00:00Z. *)
Definition sample_now : Z := 1893456000000.

(** The request to [/auth/me] fails without an answer, one second after the
    local check. *)
Definition network_down : SessionManager.RunEnv :=
  {| SessionManager.me_result := NetworkError;
     SessionManager.refresh_result := NetworkError;
     SessionManager.now := sample_now;
     SessionManager.later := sample_now + 1000 |}.

(** The server confirms the session and would grant a refresh. *)
Definition server_up : SessionManager.RunEnv :=
  {| SessionManager.me_result := Response 200 (Some (JObj [("user", sample_user)]));
     SessionManager.refresh_result :=
       Response 200
         (Some (JObj [("session",
                       JObj [("token", JStr "t1");
                             ("expires_at", JStr "2030-01-02T00:00:00Z")])]));
     SessionManager.now := sample_now;
     SessionManager.later := sample_now |}.

(** The handshake record that [initiateGitHubLogin] left for user 7. *)
Definition handshake : Storage :=
  {[ GitHubCallback.stateKey := "s3cr3t"; GitHubCallback.linkingUserKey := "7" ]}.

Definition exchange_fails : GitHubCallback.Env :=
  {| GitHubCallback.callback_result := Response 500 None;
     GitHubCallback.link_result := NetworkError |}.

Definition exchange_and_link : GitHubCallback.Env :=
  {| GitHubCallback.callback_result :=
       Response 200
         (Some (JObj [("github_linked", JBool false);
                      ("github_user", JObj [("id", JNum 99); ("username", JStr "ada")]);
                      ("access_token", JStr "gho_1")]));
     GitHubCallback.link_result := Response 200 (Some (JObj [("id", JNum 7)])) |}.

Definition callback_with (c s : string) : GitHubCallback.Params :=
  {| GitHubCallback.code := Some c;
     GitHubCallback.state := Some s;
     GitHubCallback.error_param := None |}.

(** [sample_storage] beside an entry of another part of the page. *)
Definition shared_storage : Storage := <["theme" := "dark"]> sample_storage.

(** The refresh request fails without an answer. *)
Definition refresh_down : SessionManager.RunEnv :=
  {| SessionManager.me_result := Response 200 (Some (JObj [("user", sample_user)]));
     SessionManager.refresh_result := NetworkError;
     SessionManager.now := sample_now;
     SessionManager.later := sample_now |}.

(** The server confirms the session but sends no [user]. *)
Definition no_user_in_answer : SessionManager.RunEnv :=
  {| SessionManager.me_result := Response 200 (Some (JObj [("ok", JBool true)]));
     SessionManager.refresh_result := NetworkError;
     SessionManager.now := sample_now;
     SessionManager.later := sample_now |}.

(** The server rejects the token. *)
Definition unauthorized : SessionManager.RunEnv :=
  {| SessionManager.me_result := Response 401 None;
     SessionManager.refresh_result := NetworkError;
     SessionManager.now := sample_now;
     SessionManager.later := sample_now |}.

(** Twenty-five minutes before the expiry of [sample_storage]. *)
Definition sample_late : Z := sample_now + 65 * 60000.

Definition server_up_late : SessionManager.RunEnv :=
  {| SessionManager.me_result := Response 200 (Some (JObj [("user", sample_user)]));
     SessionManager.refresh_result := NetworkError;
     SessionManager.now := sample_late;
     SessionManager.later := sample_late |}.

(** The [session] of the refresh answer in [server_up]. *)
Definition sample_session : json :=
  JObj [("token", JStr "t1"); ("expires_at", JStr "2030-01-02T00:00:00Z")].

Definition exchange_already_linked : GitHubCallback.Env :=
  {| GitHubCallback.callback_result :=
       Response 200 (Some (JObj [("github_linked", JBool true)]));
     GitHubCallback.link_result := NetworkError |}.

(** The answer of [/auth/github/login]. *)
Definition login_answer : json :=
  JObj [("auth_url", JStr "https://github.com/login/oauth/authorize");
        ("state", JStr "s3cr3t")].

(** The application signed in, over [sample_storage]. *)
Definition signed_in : App.State :=
  {| App.currentScreen := App.jobs;
     App.userData := App.restoredUserData sample_user;
     App.isAuthenticated := true;
     App.initializing := false;
     App.toast := None;
     App.local_storage := sample_storage |}.


(** A storage that is full with [sample_storage]: it accepts a write that
    does not make it longer. *)
Definition full_storage : Accepts := within_quota (storage_size sample_storage).

(** [server_up], the new expiry written with milliseconds. *)
Definition server_up_millis : SessionManager.RunEnv :=
  {| SessionManager.me_result := Response 200 (Some (JObj [("user", sample_user)]));
     SessionManager.refresh_result :=
       Response 200
         (Some (JObj [("session",
                       JObj [("token", JStr "t1");
                             ("expires_at", JStr "2030-01-02T00:00:00.000Z")])]));
     SessionManager.now := sample_now;
     SessionManager.later := sample_now |}.

(** * Properties *)

(** ** JSON text: reading back what [JSON_stringify] wrote *)

Definition no_digit_head (s : string) : Prop :=
  match s with
  | String c _ => is_digit c = false
  | EmptyString => True
  end.

Lemma app_String (c : ascii) (s t : string) : String c s +:+ t = String c (s +:+ t).
Proof. reflexivity. Qed.

Lemma app_empty (s : string) : EmptyString +:+ s = s.
Proof. reflexivity. Qed.

Lemma app_assoc_string (a b c : string) : (a +:+ b) +:+ c = a +:+ (b +:+ c).
Proof. induction a as [|x a IH]; [reflexivity | now rewrite !app_String, IH]. Qed.

Ltac norm_app := repeat (rewrite app_assoc_string || rewrite app_String || rewrite app_empty).

Lemma span_digits_stop (s : string) : no_digit_head s -> span_digits s = (EmptyString, s).
Proof. destruct s as [|c r]; simpl; [reflexivity | now intros ->]. Qed.

Lemma span_digits_uint (d : Decimal.uint) (rest : string) :
  no_digit_head rest ->
  span_digits (NilEmpty.string_of_uint d +:+ rest) = (NilEmpty.string_of_uint d, rest).
Proof.
  intros Hrest.
  induction d as [|d IH|d IH|d IH|d IH|d IH|d IH|d IH|d IH|d IH|d IH];
    cbn [NilEmpty.string_of_uint];
    [now apply span_digits_stop | ..];
    rewrite app_String; cbn [span_digits]; rewrite IH; reflexivity.
Qed.

Lemma nzhead_no_zero (d d' : Decimal.uint) : Decimal.nzhead d <> Decimal.D0 d'.
Proof. induction d; simpl; congruence. Qed.

Lemma to_uint_normal (n : N) : N.to_uint n = Decimal.unorm (N.to_uint n).
Proof. now rewrite <- (DecimalN.Unsigned.to_of (N.to_uint n)), DecimalN.Unsigned.of_to. Qed.

Lemma unorm_shape (d : Decimal.uint) :
  Decimal.unorm d <> Decimal.Nil /\
  (forall d', Decimal.unorm d = Decimal.D0 d' -> d' = Decimal.Nil).
Proof.
  unfold Decimal.unorm.
  pose proof (nzhead_no_zero d) as Hz.
  destruct (Decimal.nzhead d) eqn:E; split; try congruence;
    intros d' H; try discriminate; exfalso; eapply Hz; eassumption.
Qed.

Lemma parse_nat_string_of_N (n : N) (rest : string) :
  no_digit_head rest -> parse_nat (string_of_N n +:+ rest) = Some (n, rest).
Proof.
  intros Hrest. unfold parse_nat, string_of_N.
  destruct (unorm_shape (N.to_uint n)) as [Hnil Hzero].
  rewrite <- to_uint_normal in Hnil, Hzero.
  assert (Hs : NilZero.string_of_uint (N.to_uint n) = NilEmpty.string_of_uint (N.to_uint n))
    by (destruct (N.to_uint n); [congruence | reflexivity ..]).
  rewrite Hs, span_digits_uint by assumption.
  pose proof (NilZero.usu _ Hnil) as Hu. rewrite Hs in Hu.
  destruct (NilEmpty.string_of_uint (N.to_uint n)) as [|c s'] eqn:E.
  - destruct (N.to_uint n); [congruence | discriminate ..].
  - assert (Hlead : Ascii.eqb c "0" && negb (String.eqb s' EmptyString) = false).
    { destruct (N.to_uint n) as [|d|d|d|d|d|d|d|d|d|d] eqn:En; try congruence;
        cbn [NilEmpty.string_of_uint] in E; injection E as <- <-; try reflexivity.
      rewrite (Hzero d eq_refl). reflexivity. }
    rewrite Hlead, Hu.
    now rewrite DecimalN.Unsigned.of_to.
Qed.

Lemma string_of_N_head (n : N) :
  exists c s, string_of_N n = String c s /\ is_digit c = true.
Proof.
  unfold string_of_N.
  destruct (unorm_shape (N.to_uint n)) as [Hnil _].
  rewrite <- to_uint_normal in Hnil.
  destruct (N.to_uint n); [congruence | ..]; simpl; eauto.
Qed.

Lemma parse_number_string_of_Z (z : Z) (rest : string) :
  no_digit_head rest -> parse_number (string_of_Z z +:+ rest) = Some (JNum z, rest).
Proof.
  intros Hrest. unfold string_of_Z.
  destruct (Z.ltb_spec z 0) as [Hneg|Hpos].
  - rewrite app_String. cbn [parse_number]. rewrite Ascii.eqb_refl.
    rewrite parse_nat_string_of_N by assumption.
    do 3 f_equal. lia.
  - destruct (string_of_N_head (Z.to_N z)) as (c & s & E & Hc).
    pose proof (parse_nat_string_of_N (Z.to_N z) rest Hrest) as Hp.
    rewrite E in *. rewrite app_String in *. cbn [parse_number].
    assert (Hm : Ascii.eqb c "-" = false).
    { destruct (Ascii.eqb_spec c "-") as [->|]; [discriminate | reflexivity]. }
    rewrite Hm, Hp. do 3 f_equal. lia.
Qed.

Lemma parse_chars_quote_char (c : ascii) (tail : string) :
  parse_chars (quote_char c +:+ tail) =
  match parse_chars tail with
  | Some (t, r) => Some (String c t, r)
  | None => None
  end.
Proof. destruct c as [[] [] [] [] [] [] [] []]; reflexivity. Qed.

Lemma parse_chars_quote (s rest : string) :
  parse_chars (quote_chars s +:+ String dquote rest) = Some (s, rest).
Proof.
  induction s as [|c s IH]; [reflexivity |].
  cbn [quote_chars]. now rewrite app_assoc_string, parse_chars_quote_char, IH.
Qed.

Section json_induction.
Variable P : json -> Prop.
Hypothesis HNull : P JNull.
Hypothesis HBool : forall b, P (JBool b).
Hypothesis HNum : forall z, P (JNum z).
Hypothesis HStr : forall s, P (JStr s).
Hypothesis HArr : forall l, Forall P l -> P (JArr l).
Hypothesis HObj : forall l, Forall (fun kv => P (snd kv)) l -> P (JObj l).

Fixpoint json_induction (v : json) : P v :=
  match v with
  | JNull => HNull
  | JBool b => HBool b
  | JNum z => HNum z
  | JStr s => HStr s
  | JArr l =>
      HArr l ((fix go (l : list json) : Forall P l :=
                 match l with
                 | [] => List.Forall_nil P
                 | x :: l' => @List.Forall_cons _ P x l' (json_induction x) (go l')
                 end) l)
  | JObj l =>
      HObj l ((fix go (l : list (string * json)) : Forall (fun kv => P (snd kv)) l :=
                 match l with
                 | [] => List.Forall_nil _
                 | kv :: l' =>
                     @List.Forall_cons _ (fun kv => P (snd kv)) kv l'
                       (json_induction (snd kv)) (go l')
                 end) l)
  end.
End json_induction.

(** Fuel that [parse_value] needs to read a value back. *)
Fixpoint jsize (v : json) : nat :=
  match v with
  | JArr l => S (list_sum (map (fun x => S (jsize x)) l))
  | JObj l => S (list_sum (map (fun kv => S (jsize (snd kv))) l))
  | _ => 1
  end.

Definition value_head (c : ascii) : Prop :=
  is_ws c = false /\ c <> "]"%char /\ c <> "}"%char /\ c <> ","%char.

Lemma digit_or_minus_head (c : ascii) :
  c = "-"%char \/ is_digit c = true -> value_head c.
Proof.
  destruct c as [[] [] [] [] [] [] [] []]; intros [H|H]; try discriminate;
    repeat split; discriminate.
Qed.

Lemma stringify_head (v : json) :
  exists c s, JSON_stringify v = String c s /\ value_head c.
Proof.
  destruct v as [|[]|z|s|l|l]; cbn [JSON_stringify];
    try (eexists _, _; split; [reflexivity | repeat split; discriminate]).
  unfold string_of_Z. destruct (z <? 0).
  - eexists _, _; split; [reflexivity | repeat split; discriminate].
  - destruct (string_of_N_head (Z.to_N z)) as (c & s & -> & Hc).
    eexists _, _; split; [reflexivity | apply digit_or_minus_head; now right].
Qed.

Lemma parse_value_S (n : nat) (s : string) :
  parse_value (S n) s = parse_value_with (parse_elements n) (parse_members n) s.
Proof. reflexivity. Qed.

Lemma parse_elements_S (n : nat) (s : string) :
  parse_elements (S n) s = parse_elements_with (parse_value n) (parse_elements n) s.
Proof. reflexivity. Qed.

Lemma parse_members_S (n : nat) (s : string) :
  parse_members (S n) s = parse_members_with (parse_value n) (parse_members n) s.
Proof. reflexivity. Qed.

Lemma parse_value_number_head (n : nat) (c : ascii) (s : string) :
  c = "-"%char \/ is_digit c = true ->
  parse_value (S n) (String c s) = parse_number (String c s).
Proof.
  destruct c as [[] [] [] [] [] [] [] []]; intros [H|H]; try discriminate; reflexivity.
Qed.

Lemma quote_app (k t : string) :
  quote k +:+ t = String dquote (quote_chars k +:+ String dquote t).
Proof. unfold quote. now rewrite app_String, app_assoc_string. Qed.

Lemma eqb_value_head (c d : ascii) : c <> d -> Ascii.eqb c d = false.
Proof. intros H. now destruct (Ascii.eqb_spec c d). Qed.

(** The value this section reads back, with the fuel and the text that may
    follow it. *)
Definition reads_back (x : json) : Prop :=
  forall fuel rest, (jsize x < fuel)%nat -> no_digit_head rest ->
    parse_value fuel (JSON_stringify x +:+ rest) = Some (x, rest).

Lemma join_comma_one (a : string) : join_comma [a] = a.
Proof. reflexivity. Qed.

Lemma join_comma_more (a b : string) (l : list string) :
  join_comma (a :: b :: l) = a +:+ "," +:+ join_comma (b :: l).
Proof. reflexivity. Qed.

Lemma skip_ws_head (c : ascii) (s : string) :
  is_ws c = false -> skip_ws (String c s) = String c s.
Proof. intros H. cbn [skip_ws]. now rewrite H. Qed.

Lemma parse_elements_stringify (l : list json) :
  Forall reads_back l ->
  forall x fuel rest, reads_back x ->
    (list_sum (map (fun x => S (jsize x)) (x :: l)) < fuel)%nat ->
    parse_elements fuel (join_comma (map JSON_stringify (x :: l)) +:+ String "]" rest)
    = Some (x :: l, rest).
Proof.
  induction 1 as [|y l' Hy Hall IH]; intros x fuel rest Hx Hfuel;
    cbn [map list_sum fold_right] in Hfuel; (destruct fuel as [|fuel]; [lia |]);
    rewrite parse_elements_S; unfold parse_elements_with; cbn [map].
  - rewrite join_comma_one, Hx; [| lia | reflexivity]. reflexivity.
  - rewrite join_comma_more, app_assoc_string, Hx; [| lia | reflexivity].
    norm_app. rewrite skip_ws_head by reflexivity.
    change (Ascii.eqb "," ",") with true. cbv iota.
    change (JSON_stringify y :: map JSON_stringify l') with (map JSON_stringify (y :: l')).
    rewrite IH by (trivial || (cbn [map list_sum fold_right]; lia)). reflexivity.
Qed.

Definition member_text (kv : string * json) : string :=
  quote (fst kv) +:+ ":" +:+ JSON_stringify (snd kv).

Lemma parse_members_stringify (l : list (string * json)) :
  Forall (fun kv => reads_back (snd kv)) l ->
  forall kv fuel rest, reads_back (snd kv) ->
    (list_sum (map (fun kv => S (jsize (snd kv))) (kv :: l)) < fuel)%nat ->
    parse_members fuel (join_comma (map member_text (kv :: l)) +:+ String "}" rest)
    = Some (kv :: l, rest).
Proof.
  induction 1 as [|y l' Hy Hall IH]; intros [k x] fuel rest Hx Hfuel;
    cbn [map list_sum fold_right snd] in Hfuel, Hx; (destruct fuel as [|fuel]; [lia |]);
    rewrite parse_members_S; unfold parse_members_with; cbn [map].
  - rewrite join_comma_one. unfold member_text; cbn [fst snd].
    norm_app. rewrite quote_app, skip_ws_head by reflexivity.
    change (Ascii.eqb dquote dquote) with true. cbv iota.
    rewrite parse_chars_quote, skip_ws_head by reflexivity.
    change (Ascii.eqb ":" ":") with true. cbv iota.
    rewrite Hx; [| lia | reflexivity]. reflexivity.
  - rewrite join_comma_more. unfold member_text at 1; cbn [fst snd].
    norm_app. rewrite quote_app, skip_ws_head by reflexivity.
    change (Ascii.eqb dquote dquote) with true. cbv iota.
    rewrite parse_chars_quote, skip_ws_head by reflexivity.
    change (Ascii.eqb ":" ":") with true. cbv iota.
    rewrite Hx; [| lia | reflexivity].
    rewrite skip_ws_head by reflexivity.
    change (Ascii.eqb "," ",") with true. cbv iota.
    change (member_text y :: map member_text l') with (map member_text (y :: l')).
    rewrite IH by (trivial || (cbn [map list_sum fold_right]; lia)). reflexivity.
Qed.

Lemma distinct_NoDup (l : list string) : distinct l = true -> NoDup l.
Proof.
  induction l as [|k l IH]; cbn [distinct]; intros H; [constructor |].
  apply andb_prop in H as [Hk Hl]. constructor; [| auto].
  intros Hin. apply negb_true_iff in Hk.
  assert (existsb (String.eqb k) l = true) as E; [| congruence].
  apply existsb_exists. exists k. split; [now apply list_elem_of_In | apply String.eqb_refl].
Qed.

Lemma obj_set_fresh (k : string) (v : json) (l : list (string * json)) :
  k ∉ map fst l -> obj_set k v l = l ++ [(k, v)].
Proof.
  induction l as [|[k' v'] l IH]; cbn [obj_set map fst app]; intros Hk; [reflexivity |].
  apply not_elem_of_cons in Hk as [Hne Hk].
  destruct (String.eqb_spec k k') as [->|_]; [congruence |].
  now rewrite IH.
Qed.

Lemma obj_of_members_acc (l acc : list (string * json)) :
  NoDup (map fst (acc ++ l)) ->
  fold_left (fun acc kv => obj_set (fst kv) (snd kv) acc) l acc = acc ++ l.
Proof.
  revert acc. induction l as [|[k v] l IH]; intros acc Hnd; cbn [fold_left fst snd].
  - now rewrite app_nil_r.
  - rewrite obj_set_fresh.
    + rewrite IH; rewrite <- app_assoc; [reflexivity | exact Hnd].
    + rewrite map_app in Hnd. apply NoDup_app in Hnd as (_ & Hd & _).
      intros Hin. apply (Hd k Hin). cbn. left.
Qed.

Lemma obj_of_members_distinct (l : list (string * json)) :
  distinct (map fst l) = true -> obj_of_members l = l.
Proof.
  intros H. unfold obj_of_members. rewrite obj_of_members_acc; [reflexivity |].
  now apply distinct_NoDup.
Qed.

Lemma stringify_first (v : json) (tail : string) :
  exists c s, JSON_stringify v +:+ tail = String c s /\ value_head c.
Proof.
  destruct (stringify_head v) as (c & s & -> & Hc).
  exists c, (s +:+ tail). now rewrite app_String.
Qed.

Lemma Forall_reads_back {A : Type} (f : A -> json) (l : list A) :
  Forall (fun a => unique_keys (f a) = true -> reads_back (f a)) l ->
  forallb (fun a => unique_keys (f a)) l = true ->
  Forall (fun a => reads_back (f a)) l.
Proof.
  induction 1 as [|a l Ha _ IH]; cbn [forallb]; intros H; constructor;
    apply andb_prop in H as [H1 H2]; auto.
Qed.

Lemma parse_value_stringify (v : json) : unique_keys v = true -> reads_back v.
Proof.
  induction v as [|b|z|s|l IH|l IH] using json_induction;
    intros Hk fuel rest Hfuel Hrest; (destruct fuel as [|fuel]; [cbn in Hfuel; lia |]).
  - reflexivity.
  - destruct b; reflexivity.
  - cbn [JSON_stringify].
    pose proof (parse_number_string_of_Z z rest Hrest) as Hp.
    unfold string_of_Z in *. destruct (z <? 0).
    + rewrite app_String in *. now rewrite parse_value_number_head by now left.
    + destruct (string_of_N_head (Z.to_N z)) as (c & s & E & Hc).
      rewrite E, app_String in *. now rewrite parse_value_number_head by now right.
  - cbn [JSON_stringify]. rewrite quote_app, parse_value_S. unfold parse_value_with.
    rewrite skip_ws_head by reflexivity.
    cbv iota. change (Ascii.eqb dquote "n") with false.
    change (Ascii.eqb dquote "t") with false. change (Ascii.eqb dquote "f") with false.
    change (Ascii.eqb dquote dquote) with true. cbv iota.
    now rewrite parse_chars_quote.
  - cbn [JSON_stringify unique_keys jsize] in *.
    destruct l as [|x l]; [reflexivity |].
    norm_app. rewrite parse_value_S. unfold parse_value_with.
    rewrite skip_ws_head by reflexivity.
    cbv iota. change (Ascii.eqb "[" "n") with false.
    change (Ascii.eqb "[" "t") with false. change (Ascii.eqb "[" "f") with false.
    change (Ascii.eqb "[" dquote) with false. change (Ascii.eqb "[" "[") with true.
    cbv iota.
    pose proof (Forall_reads_back (fun a => a) _ IH Hk) as Hall.
    apply Forall_cons in Hall as [Hx Hall].
    pose proof (parse_elements_stringify l Hall x fuel rest Hx ltac:(lia)) as Hp.
    destruct (stringify_first x
                (match map JSON_stringify l with
                 | [] => EmptyString
                 | _ :: _ => "," +:+ join_comma (map JSON_stringify l)
                 end +:+ String "]" rest)) as (c & s & E & Hws & Hb & _).
    assert (Ej : join_comma (map JSON_stringify (x :: l)) +:+ String "]" rest = String c s).
    { rewrite <- E. cbn [map]. destruct (map JSON_stringify l); [reflexivity |].
      rewrite join_comma_more. now norm_app. }
    rewrite Ej in *. rewrite skip_ws_head, eqb_value_head, Hp by assumption.
    reflexivity.
  - cbn [JSON_stringify unique_keys jsize] in *.
    destruct l as [|kv l]; [reflexivity |].
    apply andb_prop in Hk as [Hd Hk].
    norm_app. rewrite parse_value_S. unfold parse_value_with.
    rewrite skip_ws_head by reflexivity.
    cbv iota. change (Ascii.eqb "{" "n") with false.
    change (Ascii.eqb "{" "t") with false. change (Ascii.eqb "{" "f") with false.
    change (Ascii.eqb "{" dquote) with false. change (Ascii.eqb "{" "[") with false.
    change (Ascii.eqb "{" "{") with true. cbv iota.
    pose proof (Forall_reads_back snd _ IH Hk) as Hall.
    apply Forall_cons in Hall as [Hx Hall].
    pose proof (parse_members_stringify l Hall kv fuel rest Hx ltac:(lia)) as Hp.
    fold member_text. change (fun kv => member_text kv) with member_text.
    assert (Ej : exists s, join_comma (map member_text (kv :: l)) +:+ String "}" rest
                           = String dquote s).
    { cbn [map]. destruct (map member_text l).
      - rewrite join_comma_one. unfold member_text. norm_app. rewrite quote_app. eauto.
      - rewrite join_comma_more. unfold member_text at 1. norm_app. rewrite quote_app. eauto. }
    destruct Ej as [s Ej].
    change (fun kv : string * json => quote (fst kv) +:+ ":" +:+ JSON_stringify (snd kv))
      with member_text.
    rewrite Ej in *. rewrite skip_ws_head by reflexivity.
    change (Ascii.eqb dquote "}") with false. cbv iota.
    rewrite Hp, obj_of_members_distinct by assumption. reflexivity.
Qed.

Lemma app_empty_r (s : string) : s +:+ EmptyString = s.
Proof. induction s as [|c s IH]; [reflexivity | now rewrite app_String, IH]. Qed.

Lemma length_app_string (a b : string) :
  String.length (a +:+ b) = (String.length a + String.length b)%nat.
Proof.
  induction a as [|c a IH]; [reflexivity |].
  rewrite app_String. cbn [String.length]. now rewrite IH.
Qed.

Lemma join_comma_bound {A : Type} (f : A -> string) (g : A -> nat) (l : list A) :
  Forall (fun a => (g a <= String.length (f a))%nat) l ->
  (list_sum (map (fun a => S (g a)) l) <= String.length (join_comma (map f l)) + 1)%nat.
Proof.
  induction 1 as [|a l Ha Hall IH]; cbn [map list_sum fold_right]; [cbn; lia |].
  destruct l as [|b l].
  - rewrite join_comma_one. cbn. lia.
  - cbn [map] in *. rewrite join_comma_more, !length_app_string.
    cbn [String.length list_sum fold_right] in *. lia.
Qed.

Lemma jsize_le_length (v : json) : (jsize v <= String.length (JSON_stringify v))%nat.
Proof.
  induction v as [|b|z|s|l IH|l IH] using json_induction; cbn [jsize JSON_stringify].
  - cbn. lia.
  - destruct b; cbn; lia.
  - destruct (stringify_head (JNum z)) as (c & s & E & _).
    cbn [JSON_stringify] in E. rewrite E. cbn. lia.
  - unfold quote. cbn [String.length]. lia.
  - pose proof (join_comma_bound JSON_stringify jsize l IH).
    rewrite !length_app_string. cbn [String.length]. lia.
  - assert (Hm : Forall (fun kv => (jsize (snd kv) <= String.length (member_text kv))%nat) l).
    { eapply Forall_impl; [exact IH |]. intros [k x] H. cbn [snd fst] in *.
      unfold member_text. rewrite !length_app_string. cbn [fst snd]. lia. }
    pose proof (join_comma_bound member_text (fun kv => jsize (snd kv)) l Hm).
    change (fun kv : string * json => quote (fst kv) +:+ ":" +:+ JSON_stringify (snd kv))
      with member_text.
    rewrite !length_app_string. cbn [String.length]. lia.
Qed.

(** What [JSON.stringify] writes, [JSON.parse] reads back. *)
Theorem JSON_parse_stringify (v : json) :
  unique_keys v = true -> JSON_parse (JSON_stringify v) = Some v.
Proof.
  intros Hk. unfold JSON_parse.
  pose proof (parse_value_stringify v Hk (S (String.length (JSON_stringify v)))
                EmptyString) as Hp.
  rewrite app_empty_r in Hp. rewrite Hp; [reflexivity | | exact I].
  pose proof (jsize_le_length v). lia.
Qed.

(** The text ["undefined"] is not JSON. *)
Lemma JSON_parse_undefined : JSON_parse "undefined" = None.
Proof. reflexivity. Qed.

(** ** The instance of [Date.parse] *)

Example iso_epoch : iso_date_parse "1970-01-01T00:00:00Z" = Some 0.
Proof. reflexivity. Qed.

Example iso_2030 : iso_date_parse "2030-01-01T00:00:00.000Z" = Some 1893456000000.
Proof. reflexivity. Qed.

Example iso_leap_day : iso_date_parse "2024-02-29" = Some 1709164800000.
Proof. reflexivity. Qed.

Example iso_garbage : iso_date_parse "not-a-date" = None.
Proof. reflexivity. Qed.

Example iso_empty : iso_date_parse EmptyString = None.
Proof. reflexivity. Qed.

(** ** The Session Store *)

Lemma truthy_of_prop (j : json) (k : string) :
  truthy_val (get_prop j k) = true -> truthy j = true.
Proof. destruct j; cbn; congruence. Qed.

Lemma stringify_nonempty (j : json) : String.eqb (JSON_stringify j) EmptyString = false.
Proof. destruct (stringify_head j) as (c & s & -> & _). reflexivity. Qed.

Lemma keys_distinct :
  SessionManager.tokenKey <> SessionManager.userKey /\
  SessionManager.tokenKey <> SessionManager.expiryKey /\
  SessionManager.userKey <> SessionManager.expiryKey.
Proof. repeat split; discriminate. Qed.

(** What [getUser] returns once [JSON.stringify(j)] is the stored text. *)
Lemma getUser_stored (st : Storage) (j : json) :
  unique_keys j = true ->
  st !! SessionManager.userKey = Some (JSON_stringify j) ->
  SessionManager.getUser st = if has_required_fields (Some j) then Some j else None.
Proof.
  intros Hk Hst. unfold SessionManager.getUser, getItem. rewrite Hst.
  cbn [truthy_item default from_option id]. rewrite stringify_nonempty.
  cbn [negb]. rewrite JSON_parse_stringify by assumption.
  cbn [negb has_required_fields].
  destruct (truthy_val (get_prop j "id")) eqn:Hid; cbn [negb orb andb].
  - rewrite (truthy_of_prop j "id" Hid). cbn [negb orb].
    now destruct (truthy_val (get_prop j "email")).
  - now rewrite orb_true_r.
Qed.

(** The text that [updateUser(undefined)] stores is not JSON. *)
Lemma getUser_undefined (st : Storage) :
  st !! SessionManager.userKey = Some "undefined" -> SessionManager.getUser st = None.
Proof. intros Hst. unfold SessionManager.getUser, getItem. now rewrite Hst. Qed.

Lemma setSession_falsy (st : Storage) (sessionToken userData expiresAt : jsval) :
  truthy_val sessionToken = false \/ truthy_val userData = false
  \/ truthy_val expiresAt = false ->
  SessionManager.setSession st sessionToken userData expiresAt = (false, st).
Proof.
  unfold SessionManager.setSession.
  intros [-> | [-> | ->]]; cbn [negb orb]; rewrite ?orb_true_r; reflexivity.
Qed.

Lemma setSession_truthy (st : Storage) (sessionToken userData expiresAt : jsval) :
  truthy_val sessionToken = true -> truthy_val userData = true ->
  truthy_val expiresAt = true ->
  SessionManager.setSession st sessionToken userData expiresAt
  = (true, written st sessionToken userData expiresAt).
Proof. unfold SessionManager.setSession. now intros -> -> ->. Qed.

Lemma written_fields (st : Storage) (sessionToken userData expiresAt : jsval) :
  let st' := written st sessionToken userData expiresAt in
  SessionManager.getToken st' = Some (to_string_val sessionToken) /\
  getItem st' SessionManager.userKey = Some (to_string_text (JSON_stringify_val userData)) /\
  SessionManager.getExpiry st' = Some (to_string_val expiresAt).
Proof.
  cbv zeta. destruct keys_distinct as (Htu & Hte & Hue).
  unfold written, SessionManager.getToken, SessionManager.getExpiry, getItem.
  repeat split; now simplify_map_eq.
Qed.

(** Over a storage that accepts every write, [setSession_in] is
    [setSession]. *)
Lemma setSession_in_accepting (accepts : Accepts) (st : Storage)
    (sessionToken userData expiresAt : jsval) :
  (forall s k v, accepts s k v = true) ->
  SessionManager.setSession_in accepts st sessionToken userData expiresAt
  = SessionManager.setSession st sessionToken userData expiresAt.
Proof.
  intros Hacc. unfold SessionManager.setSession_in, SessionManager.setSession, setItem_in.
  now rewrite !Hacc.
Qed.






Section SessionProperties.

Variable Date_parse : string -> option Z.

(** [new Date("")] is an Invalid Date. *)
Hypothesis Date_parse_empty : Date_parse EmptyString = None.

Lemma parseable_nonempty (e : string) (d : Z) :
  Date_parse e = Some d -> String.eqb e EmptyString = false.
Proof.
  intros H. destruct (String.eqb_spec e EmptyString) as [->|]; [congruence | reflexivity].
Qed.

(** [getUser] returns a snapshot exactly when the stored text is JSON for a
    value with a truthy [id] and a truthy [email]. *)
Lemma getUser_Some (st : Storage) (u : json) :
  SessionManager.getUser st = Some u <->
  exists s, getItem st SessionManager.userKey = Some s /\ JSON_parse s = Some u /\
            has_required_fields (Some u) = true.
Proof.
  unfold SessionManager.getUser, has_required_fields.
  destruct (getItem st SessionManager.userKey) as [s|] eqn:Hs; cbn [truthy_item negb].
  - destruct (String.eqb_spec s EmptyString) as [->|Hne]; cbn [negb default from_option id].
    + split; [discriminate | intros (s & [= <-] & Hp & _); discriminate].
    + destruct (JSON_parse s) as [parsed|] eqn:Hp.
      * assert (Hcond : negb (truthy parsed) || negb (truthy_val (get_prop parsed "id"))
                        || negb (truthy_val (get_prop parsed "email"))
                        = negb (truthy_val (get_prop parsed "id")
                                && truthy_val (get_prop parsed "email"))).
        { destruct (truthy_val (get_prop parsed "id")) eqn:Hid.
          - rewrite (truthy_of_prop parsed "id" Hid). reflexivity.
          - now rewrite orb_true_r. }
        rewrite Hcond.
        destruct (truthy_val (get_prop parsed "id") && truthy_val (get_prop parsed "email"))
          eqn:Hreq; cbn [negb].
        -- split.
           ++ intros [= <-]. exists s. auto.
           ++ intros (s' & [= <-] & Hp' & _). congruence.
        -- split; [discriminate |].
           intros (s' & [= <-] & Hp' & Hreq'). congruence.
      * split; [discriminate | intros (s' & [= <-] & Hp' & _); congruence].
  - split; [discriminate | intros (s & [=] & _)].
Qed.

(** C9.  [isLoggedIn()] and [isSessionValid()] agree on every storage: the
    second conjunct of [isLoggedIn] is implied by the first. *)
Theorem isLoggedIn_is_isSessionValid (st : Storage) (now : Z) :
  SessionManager.isLoggedIn Date_parse st now = SessionManager.isSessionValid Date_parse st now.
Proof.
  unfold SessionManager.isLoggedIn, SessionManager.isSessionValid.
  destruct (bool_decide (is_Some (SessionManager.getUser st))); cbn [negb];
    rewrite ?orb_true_r, ?andb_true_r; reflexivity.
Qed.


Lemma is_Some_getUser (st : Storage) :
  bool_decide (is_Some (SessionManager.getUser st)) = true <->
  exists s u, getItem st SessionManager.userKey = Some s /\ JSON_parse s = Some u /\
              has_required_fields (Some u) = true.
Proof.
  rewrite bool_decide_eq_true. split.
  - intros [u Hu]. apply getUser_Some in Hu as (s & Hs). eauto.
  - intros (s & u & H). exists u. apply getUser_Some. eauto.
Qed.

(** C6.  [isSessionValid()] is true exactly when a non-empty token is
    stored, the stored user text is JSON for a snapshot with a truthy [id]
    and a truthy [email], and the stored expiry parses to a date strictly
    after the clock reading.  It is a total function: on every storage it
    returns a boolean. *)
Theorem isSessionValid_iff (st : Storage) (now : Z) :
  SessionManager.isSessionValid Date_parse st now = true <->
  (exists t, SessionManager.getToken st = Some t /\ t <> EmptyString) /\
  (exists s u, getItem st SessionManager.userKey = Some s /\ JSON_parse s = Some u /\
               has_required_fields (Some u) = true) /\
  (exists e d, SessionManager.getExpiry st = Some e /\ Date_parse e = Some d /\ now < d).
Proof.
  rewrite <- is_Some_getUser. unfold SessionManager.isSessionValid.
  destruct (SessionManager.getToken st) as [t|]; cbn [truthy_item negb orb];
    [| split; [discriminate | intros [(t & [=] & _) _]]].
  destruct (String.eqb_spec t EmptyString) as [->|Ht]; cbn [negb orb];
    [split; [discriminate | intros [(t & [= <-] & Hne) _]; congruence] |].
  destruct (SessionManager.getExpiry st) as [e|]; cbn [truthy_item negb orb default from_option id];
    [| split; [discriminate | intros (_ & _ & e & d & [=] & _)]].
  destruct (String.eqb_spec e EmptyString) as [->|He]; cbn [negb orb].
  { split; [discriminate | intros (_ & _ & e & d & [= <-] & Hd & _); congruence]. }
  destruct (bool_decide (is_Some (SessionManager.getUser st))); cbn [negb];
    [| split; [discriminate | intros (_ & [=] & _)]].
  destruct (Date_parse e) as [d|] eqn:Hd.
  - split.
    + intros Hlt. apply Z.ltb_lt in Hlt. repeat split; eauto.
    + intros (_ & _ & e' & d' & [= <-] & Hd' & Hlt).
      apply Z.ltb_lt. congruence.
  - split; [discriminate | intros (_ & _ & e' & d' & [= <-] & Hd' & _); congruence].
Qed.

(** C8.  A well-formed triple is read back as written: a non-empty token,
    a snapshot (JSON data, so with distinct keys) whose [id] and [email] are
    truthy, and an expiry text that parses to a date after the clock
    reading. *)
Theorem setSession_round_trip (st : Storage) (token expiry : string) (user : json)
    (now d : Z) :
  token <> EmptyString ->
  unique_keys user = true ->
  has_required_fields (Some user) = true ->
  Date_parse expiry = Some d -> now < d ->
  let r := SessionManager.setSession st (Some (JStr token)) (Some user) (Some (JStr expiry)) in
  fst r = true /\
  SessionManager.getToken (snd r) = Some token /\
  SessionManager.getUser (snd r) = Some user /\
  SessionManager.getExpiry (snd r) = Some expiry.
Proof.
  intros Ht Hk Hreq Hd Hlt. cbv zeta.
  rewrite setSession_truthy; cbn [truthy_val truthy fst snd].
  - destruct (written_fields st (Some (JStr token)) (Some user) (Some (JStr expiry)))
      as (Htok & Huser & Hexp).
    repeat split; try assumption.
    rewrite (getUser_stored _ user Hk Huser), Hreq. reflexivity.
  - destruct (String.eqb_spec token EmptyString); [congruence | reflexivity].
  - apply andb_prop in Hreq as [Hid _]. exact (truthy_of_prop user "id" Hid).
  - now rewrite (parseable_nonempty expiry d Hd).
Qed.

(** C10.  [updateUser] writes whatever it is given.  For an argument
    without a truthy [id] and [email] ([undefined], [null], or JSON data
    lacking one of the two) the user text is overwritten, token and expiry
    stay as they were, [getUser()] returns [null] from then on and
    [isSessionValid()] is false, though nothing was cleared. *)
Theorem updateUser_unvalidated (st : Storage) (userData : jsval) :
  (forall j, userData = Some j -> unique_keys j = true) ->
  has_required_fields userData = false ->
  let st' := SessionManager.updateUser st userData in
  getItem st' SessionManager.userKey
    = Some (to_string_text (JSON_stringify_val userData)) /\
  SessionManager.getToken st' = SessionManager.getToken st /\
  SessionManager.getExpiry st' = SessionManager.getExpiry st /\
  SessionManager.getUser st' = None /\
  (forall now, SessionManager.isSessionValid Date_parse st' now = false).
Proof.
  intros Hk Hreq. cbv zeta.
  destruct keys_distinct as (Htu & Hte & Hue).
  assert (Hu : SessionManager.getUser (SessionManager.updateUser st userData) = None).
  { destruct userData as [j|].
    - rewrite (getUser_stored _ j (Hk j eq_refl)), ?Hreq; [reflexivity |].
      unfold SessionManager.updateUser, setItem. now simplify_map_eq.
    - apply getUser_undefined. unfold SessionManager.updateUser, setItem.
      now simplify_map_eq. }
  unfold SessionManager.isSessionValid. rewrite Hu.
  unfold SessionManager.getToken, SessionManager.getExpiry, SessionManager.updateUser,
    getItem, setItem.
  repeat split; simplify_map_eq; try reflexivity.
  intros t. rewrite orb_true_r. reflexivity.
Qed.

End SessionProperties.

Example sample_storage_valid :
  SessionManager.isSessionValid iso_date_parse sample_storage sample_now = true.
Proof. vm_compute. reflexivity. Qed.

Example sample_storage_user : SessionManager.getUser sample_storage = Some sample_user.
Proof. vm_compute. reflexivity. Qed.

Lemma isSessionValid_iff_witness :
  SessionManager.isSessionValid iso_date_parse sample_storage sample_now = true <->
  (exists t, SessionManager.getToken sample_storage = Some t /\ t <> EmptyString) /\
  (exists s u, getItem sample_storage SessionManager.userKey = Some s /\
               JSON_parse s = Some u /\ has_required_fields (Some u) = true) /\
  (exists e d, SessionManager.getExpiry sample_storage = Some e /\
               iso_date_parse e = Some d /\ sample_now < d).
Proof. exact (isSessionValid_iff iso_date_parse eq_refl sample_storage sample_now). Defined.

Lemma setSession_round_trip_witness :
  let r := SessionManager.setSession ∅ (Some (JStr "t0")) (Some sample_user)
             (Some (JStr "2030-01-01T01:30:00Z")) in
  fst r = true /\
  SessionManager.getToken (snd r) = Some "t0" /\
  SessionManager.getUser (snd r) = Some sample_user /\
  SessionManager.getExpiry (snd r) = Some "2030-01-01T01:30:00Z".
Proof.
  apply (setSession_round_trip iso_date_parse eq_refl ∅ "t0" "2030-01-01T01:30:00Z"
           sample_user sample_now 1893461400000).
  - discriminate.
  - reflexivity.
  - reflexivity.
  - reflexivity.
  - reflexivity.
Defined.

(** A profile echo without an [email]. *)
Lemma updateUser_unvalidated_witness :
  let st' := SessionManager.updateUser sample_storage (Some (JObj [("id", JNum 7)])) in
  getItem st' SessionManager.userKey = Some (JSON_stringify (JObj [("id", JNum 7)])) /\
  SessionManager.getToken st' = SessionManager.getToken sample_storage /\
  SessionManager.getExpiry st' = SessionManager.getExpiry sample_storage /\
  SessionManager.getUser st' = None /\
  (forall now, SessionManager.isSessionValid iso_date_parse st' now = false).
Proof.
  apply (updateUser_unvalidated iso_date_parse sample_storage (Some (JObj [("id", JNum 7)]))).
  - intros j [= <-]. reflexivity.
  - reflexivity.
Defined.

(** ** Expiry arithmetic *)

Section ExpiryProperties.

Variable Date_parse : string -> option Z.

(** Where the stored expiry is absent, empty or a date, the result is a
    number of minutes, never negative, and 0 once the date is reached. *)
Lemma getTimeUntilExpiry_minutes (st : Storage) (now : Z) :
  (truthy_item (SessionManager.getExpiry st) = false ->
   SessionManager.getTimeUntilExpiry Date_parse st now = Num 0) /\
  (forall e d, SessionManager.getExpiry st = Some e -> e <> EmptyString ->
     Date_parse e = Some d ->
     SessionManager.getTimeUntilExpiry Date_parse st now
       = Num (Z.max 0 ((d - now) / 60000)) /\
     0 <= Z.max 0 ((d - now) / 60000) /\
     (d <= now -> Z.max 0 ((d - now) / 60000) = 0)).
Proof.
  unfold SessionManager.getTimeUntilExpiry. split.
  - now intros ->.
  - intros e d -> He Hd. cbn [truthy_item default from_option id].
    destruct (String.eqb_spec e EmptyString) as [|_]; [congruence |].
    cbn [negb]. rewrite Hd. repeat split; [lia |].
    intros Hpast. apply Z.max_l.
    assert ((d - now) / 60000 <= 0 / 60000) by (apply Z.div_le_mono; lia).
    now rewrite Z.div_0_l in H by lia.
Qed.

(** A stored expiry that is not empty and not a date: the subtraction, the
    floor and [Math.max] all give [NaN]. *)
Lemma getTimeUntilExpiry_unparseable (st : Storage) (now : Z) (e : string) :
  SessionManager.getExpiry st = Some e -> e <> EmptyString -> Date_parse e = None ->
  SessionManager.getTimeUntilExpiry Date_parse st now = NaN /\
  SessionManager.isSessionExpiringSoon Date_parse st now = false.
Proof.
  intros He Hne Hd.
  unfold SessionManager.isSessionExpiringSoon, SessionManager.getTimeUntilExpiry.
  rewrite He. cbn [truthy_item default from_option id].
  destruct (String.eqb_spec e EmptyString) as [|_]; [congruence |].
  cbn [negb]. now rewrite Hd.
Qed.

End ExpiryProperties.

(** C7, at the input where the code departs from it: with the expiry text
    [not-a-date] in the storage, [getTimeUntilExpiry()] is [NaN] at every
    clock reading, not a number of minutes, and [isSessionExpiringSoon()] is
    false; [isSessionValid()] does guard this case with [isNaN]. *)
Theorem getTimeUntilExpiry_NaN (now : Z) :
  let st : Storage := <[SessionManager.expiryKey := "not-a-date"]> sample_storage in
  SessionManager.getTimeUntilExpiry iso_date_parse st now = NaN /\
  SessionManager.isSessionExpiringSoon iso_date_parse st now = false /\
  SessionManager.isSessionValid iso_date_parse st now = false.
Proof. cbv zeta. repeat split; reflexivity. Qed.

(** ** The Session Reconciler *)

Section ReconcilerProperties.

Variable Date_parse : string -> option Z.

Lemma isSessionValid_true (st : Storage) (t : Z) :
  SessionManager.isSessionValid Date_parse st t = true ->
  truthy_item (SessionManager.getToken st) = true /\
  bool_decide (is_Some (SessionManager.getUser st)) = true /\
  truthy_item (SessionManager.getExpiry st) = true /\
  exists d, Date_parse (default EmptyString (SessionManager.getExpiry st)) = Some d /\ t < d.
Proof.
  unfold SessionManager.isSessionValid.
  destruct (truthy_item (SessionManager.getToken st)); [| discriminate].
  destruct (truthy_item (SessionManager.getExpiry st)); [| discriminate].
  destruct (bool_decide (is_Some (SessionManager.getUser st))); [| discriminate].
  cbn [negb orb].
  destruct (Date_parse (default EmptyString (SessionManager.getExpiry st))) as [d|];
    [| discriminate].
  intros H. apply Z.ltb_lt in H. repeat split; eauto.
Qed.

Lemma clearSession_empty (st : Storage) :
  SessionManager.getToken (SessionManager.clearSession st) = None /\
  getItem (SessionManager.clearSession st) SessionManager.userKey = None /\
  SessionManager.getExpiry (SessionManager.clearSession st) = None.
Proof.
  destruct keys_distinct as (Htu & Hte & Hue).
  unfold SessionManager.getToken, SessionManager.getExpiry, SessionManager.clearSession,
    getItem, removeItem.
  repeat split; now simplify_map_eq.
Qed.

Lemma isLoggedIn_cleared (st : Storage) (t : Z) :
  SessionManager.isLoggedIn Date_parse (SessionManager.clearSession st) t = false.
Proof.
  unfold SessionManager.isLoggedIn, SessionManager.isSessionValid.
  destruct (clearSession_empty st) as (-> & _ & _). reflexivity.
Qed.

(** C1.  From a stored valid session: a 401 answer of [/auth/me] clears
    the store and the verdict is false, so [isLoggedIn()] is false
    afterwards; any other answer outside 200..299, and a request that
    fails without an answer, leave the store as it was and the verdict is
    the local one, [isSessionValid()] read when the request has settled. *)
Theorem checkAndRefreshSession_failure_split (st : Storage) (env : SessionManager.RunEnv) :
  SessionManager.isSessionValid Date_parse st (SessionManager.now env) = true ->
  let r := SessionManager.checkAndRefreshSession Date_parse st env in
  (forall body, SessionManager.me_result env = Response 401 body ->
     SessionManager.verdict r = false /\
     SessionManager.store r = SessionManager.clearSession st /\
     SessionManager.getToken (SessionManager.store r) = None /\
     getItem (SessionManager.store r) SessionManager.userKey = None /\
     SessionManager.getExpiry (SessionManager.store r) = None /\
     forall t, SessionManager.isLoggedIn Date_parse (SessionManager.store r) t = false) /\
  (forall status body, SessionManager.me_result env = Response status body ->
     ok status = false -> status <> 401 ->
     SessionManager.store r = st /\
     SessionManager.verdict r
       = SessionManager.isSessionValid Date_parse st (SessionManager.later env)) /\
  (SessionManager.me_result env = NetworkError ->
     SessionManager.store r = st /\
     SessionManager.verdict r
       = SessionManager.isSessionValid Date_parse st (SessionManager.later env)).
Proof.
  intros Hvalid. cbv zeta.
  destruct (isSessionValid_true st _ Hvalid) as (Htok & Huser & _).
  unfold SessionManager.checkAndRefreshSession.
  rewrite Htok, Huser, Hvalid. cbn [negb orb].
  split; [| split].
  - intros body Hme. rewrite Hme. cbn [ok Z.leb Z.compare Pos.compare Pos.compare_cont andb].
    change (401 =? 401) with true. cbv iota.
    cbn [SessionManager.verdict SessionManager.store].
    destruct (clearSession_empty st) as (Ht & Hu & He).
    repeat split; try assumption. intros t. apply isLoggedIn_cleared.
  - intros status body Hme Hok Hne. rewrite Hme, Hok.
    apply Z.eqb_neq in Hne. rewrite Hne. split; reflexivity.
  - intros Hme. rewrite Hme. split; reflexivity.
Qed.

Lemma getExpiry_updateUser (st : Storage) (u : jsval) :
  SessionManager.getExpiry (SessionManager.updateUser st u) = SessionManager.getExpiry st.
Proof.
  destruct keys_distinct as (_ & _ & Hue).
  unfold SessionManager.getExpiry, SessionManager.updateUser, getItem, setItem.
  now simplify_map_eq.
Qed.

Lemma minutes_under_two_hours (d t : Z) :
  d - t < 2 * 60 * 60 * 1000 <-> Z.max 0 ((d - t) / (1000 * 60)) < 120.
Proof.
  change (1000 * 60) with 60000. split; intros H.
  - assert ((d - t) / 60000 < 120) by (apply Z.div_lt_upper_bound; lia). lia.
  - destruct (Z.lt_ge_cases (d - t) (2 * 60 * 60 * 1000)) as [|Hge]; [assumption |].
    assert (120 <= (d - t) / 60000) by (apply Z.div_le_lower_bound; lia). lia.
Qed.

(** C2, as the code has it.  After an answer of [/auth/me] in 200..299
    whose body is JSON other than [null], the run returns true and makes
    the refresh request exactly when the stored expiry is less than two
    hours after the clock reading, that is when [getTimeUntilExpiry()] is
    below 120 minutes; so it does at 60 minutes and at 90 minutes. *)
Theorem refresh_iff_under_two_hours (st : Storage) (env : SessionManager.RunEnv)
    (status : Z) (data : json) :
  SessionManager.isSessionValid Date_parse st (SessionManager.now env) = true ->
  SessionManager.me_result env = Response status (Some data) ->
  ok status = true -> data <> JNull ->
  let r := SessionManager.checkAndRefreshSession Date_parse st env in
  let minutes := SessionManager.getTimeUntilExpiry Date_parse st (SessionManager.later env) in
  SessionManager.verdict r = true /\
  (called AuthRefresh (SessionManager.calls r) = true <->
   exists m, minutes = Num m /\ m < 120) /\
  (minutes = Num 60 -> called AuthRefresh (SessionManager.calls r) = true) /\
  (minutes = Num 90 -> called AuthRefresh (SessionManager.calls r) = true).
Proof.
  intros Hvalid Hme Hok Hdata. cbv zeta.
  destruct (isSessionValid_true st _ Hvalid) as (Htok & Huser & Hexp & d & Hd & _).
  assert (Hcore :
    SessionManager.verdict (SessionManager.checkAndRefreshSession Date_parse st env) = true /\
    (called AuthRefresh
       (SessionManager.calls (SessionManager.checkAndRefreshSession Date_parse st env)) = true
     <-> exists m, SessionManager.getTimeUntilExpiry Date_parse st (SessionManager.later env)
                   = Num m /\ m < 120)).
  { unfold SessionManager.checkAndRefreshSession, SessionManager.getTimeUntilExpiry.
    rewrite Htok, Huser, Hvalid, Hme, Hok. cbn [negb orb].
    destruct data; try congruence; rewrite getExpiry_updateUser, Hexp, Hd; cbn [negb];
      (destruct (Z.ltb_spec (d - SessionManager.later env) (2 * 60 * 60 * 1000)) as [Hlt|Hge];
       (cbn [SessionManager.verdict SessionManager.calls];
        split; [reflexivity |]; split;
        [ intros Hc;
          first [ discriminate Hc
                | eexists; split; [reflexivity | now apply minutes_under_two_hours] ]
        | intros (m & [= <-] & Hm); try reflexivity;
          apply minutes_under_two_hours in Hm; lia ])). }
  destruct Hcore as [Hv Hiff]. repeat split; try assumption; try apply Hiff.
  - intros Hm. apply Hiff. exists 60. split; [exact Hm | lia].
  - intros Hm. apply Hiff. exists 90. split; [exact Hm | lia].
Qed.

End ReconcilerProperties.

Lemma checkAndRefreshSession_failure_split_witness :
  let r := SessionManager.checkAndRefreshSession iso_date_parse sample_storage network_down in
  SessionManager.store r = sample_storage /\
  SessionManager.verdict r
    = SessionManager.isSessionValid iso_date_parse sample_storage (sample_now + 1000).
Proof.
  exact (proj2 (proj2 (checkAndRefreshSession_failure_split iso_date_parse sample_storage
                         network_down sample_storage_valid)) eq_refl).
Defined.

(** C2 as stated fails: 90 minutes before the expiry the session is not
    expiring soon, and the run makes the refresh request. *)
Lemma refresh_at_ninety_minutes :
  SessionManager.getTimeUntilExpiry iso_date_parse sample_storage sample_now = Num 90 /\
  SessionManager.isSessionExpiringSoon iso_date_parse sample_storage sample_now = false /\
  SessionManager.calls
    (SessionManager.checkAndRefreshSession iso_date_parse sample_storage server_up)
    = [AuthMe; AuthRefresh].
Proof. repeat split; vm_compute; reflexivity. Qed.

Lemma refresh_iff_under_two_hours_witness :
  let r := SessionManager.checkAndRefreshSession iso_date_parse sample_storage server_up in
  let minutes := SessionManager.getTimeUntilExpiry iso_date_parse sample_storage sample_now in
  SessionManager.verdict r = true /\
  (called AuthRefresh (SessionManager.calls r) = true <->
   exists m, minutes = Num m /\ m < 120) /\
  (minutes = Num 60 -> called AuthRefresh (SessionManager.calls r) = true) /\
  (minutes = Num 90 -> called AuthRefresh (SessionManager.calls r) = true).
Proof.
  apply (refresh_iff_under_two_hours iso_date_parse sample_storage server_up 200
           (JObj [("user", sample_user)])).
  - exact sample_storage_valid.
  - reflexivity.
  - reflexivity.
  - discriminate.
Defined.

(** After the refresh of [server_up] the store holds the new token and
    expiry and the user the server sent. *)
Example server_up_refreshes :
  let r := SessionManager.checkAndRefreshSession iso_date_parse sample_storage server_up in
  SessionManager.getToken (SessionManager.store r) = Some "t1" /\
  SessionManager.getUser (SessionManager.store r) = Some sample_user /\
  SessionManager.getExpiry (SessionManager.store r) = Some "2030-01-02T00:00:00Z".
Proof. repeat split; vm_compute; reflexivity. Qed.

(** ** The OAuth callback *)

Lemma cleanUp_empty (ss : Storage) :
  getItem (GitHubCallback.cleanUp ss) GitHubCallback.stateKey = None /\
  getItem (GitHubCallback.cleanUp ss) GitHubCallback.linkingUserKey = None.
Proof.
  assert (GitHubCallback.stateKey <> GitHubCallback.linkingUserKey) by discriminate.
  unfold GitHubCallback.cleanUp, getItem, removeItem. split; now simplify_map_eq.
Qed.

Lemma rejected_without_state (p : GitHubCallback.Params) (ss : Storage)
    (env : GitHubCallback.Env) :
  truthy_item (getItem ss GitHubCallback.stateKey) = false \/
  getItem ss GitHubCallback.stateKey <> GitHubCallback.state p ->
  GitHubCallback.handleGitHubCallback p ss env
  = {| GitHubCallback.statuses := [GitHubCallback.error];
       GitHubCallback.session_storage := ss;
       GitHubCallback.calls := [];
       GitHubCallback.redirect_scheduled := false |}.
Proof.
  intros Hstate. unfold GitHubCallback.handleGitHubCallback.
  assert (Hrej : negb (truthy_item (getItem ss GitHubCallback.stateKey))
                 || negb (bool_decide (getItem ss GitHubCallback.stateKey
                                       = GitHubCallback.state p)) = true).
  { destruct Hstate as [-> | Hne]; [reflexivity |].
    rewrite (bool_decide_eq_false_2 _ Hne). apply orb_true_r. }
  rewrite Hrej.
  destruct (truthy_item (GitHubCallback.error_param p));
    [| destruct (truthy_item (GitHubCallback.code p))]; reflexivity.
Qed.

(** C4.  When no handshake state is stored (or an empty one), or the stored
    one differs from the [state] parameter, the run ends in [error], makes
    no request at all, so none to the link endpoint, and leaves
    [sessionStorage] as it was. *)
Theorem state_mismatch_rejected (p : GitHubCallback.Params) (ss : Storage)
    (env : GitHubCallback.Env) :
  truthy_item (getItem ss GitHubCallback.stateKey) = false \/
  getItem ss GitHubCallback.stateKey <> GitHubCallback.state p ->
  let r := GitHubCallback.handleGitHubCallback p ss env in
  GitHubCallback.final_status r = GitHubCallback.error /\
  GitHubCallback.statuses r = [GitHubCallback.error] /\
  GitHubCallback.calls r = [] /\
  called GithubLink (GitHubCallback.calls r) = false /\
  GitHubCallback.session_storage r = ss.
Proof.
  intros Hstate. cbv zeta. rewrite rejected_without_state by assumption.
  repeat split.
Qed.

(** What a run leaves: [success] with the handshake record removed and the
    redirect scheduled, or [error] with [sessionStorage] untouched. *)
Lemma handleGitHubCallback_ends (p : GitHubCallback.Params) (ss : Storage)
    (env : GitHubCallback.Env) :
  let r := GitHubCallback.handleGitHubCallback p ss env in
  (GitHubCallback.final_status r = GitHubCallback.success /\
   GitHubCallback.session_storage r = GitHubCallback.cleanUp ss /\
   GitHubCallback.redirect_scheduled r = true) \/
  (GitHubCallback.final_status r = GitHubCallback.error /\
   GitHubCallback.session_storage r = ss /\
   GitHubCallback.redirect_scheduled r = false).
Proof.
  cbv zeta. unfold GitHubCallback.handleGitHubCallback, GitHubCallback.linkGitHubAccount.
  repeat case_match; cbn; auto.
Qed.

(** C3, as the code has it.  A run ends in [success] or in [error].  On
    [success] the handshake record is removed, and no later run can use it:
    whatever its parameters, it ends in [error] before any request.  On
    [error] the record stays as it was; [handleRetry] removes it. *)
Theorem handshake_removed_on_success (p : GitHubCallback.Params) (ss : Storage)
    (env : GitHubCallback.Env) :
  let r := GitHubCallback.handleGitHubCallback p ss env in
  let ss' := GitHubCallback.session_storage r in
  (GitHubCallback.final_status r = GitHubCallback.success \/
   GitHubCallback.final_status r = GitHubCallback.error) /\
  (GitHubCallback.final_status r = GitHubCallback.success ->
     getItem ss' GitHubCallback.stateKey = None /\
     getItem ss' GitHubCallback.linkingUserKey = None /\
     forall p' env',
       let r' := GitHubCallback.handleGitHubCallback p' ss' env' in
       GitHubCallback.final_status r' = GitHubCallback.error /\
       GitHubCallback.calls r' = []) /\
  (GitHubCallback.final_status r = GitHubCallback.error -> ss' = ss) /\
  getItem (GitHubCallback.handleRetry ss') GitHubCallback.stateKey = None /\
  getItem (GitHubCallback.handleRetry ss') GitHubCallback.linkingUserKey = None.
Proof.
  cbv zeta.
  destruct (handleGitHubCallback_ends p ss env) as [(Hf & Hs & _) | (Hf & Hs & _)];
    rewrite Hf, Hs; (split; [auto |]); (split; [| split; [| apply cleanUp_empty]]);
    try discriminate; try reflexivity.
  intros _. destruct (cleanUp_empty ss) as [Hstate Huid].
  repeat split; try assumption;
    rewrite rejected_without_state by (left; now rewrite Hstate); reflexivity.
Qed.

(** C3 as stated fails: a run that ends in [error] leaves the handshake
    record in [sessionStorage], and the next run reads it, passes the state
    check with it and goes on to link. *)
Lemma handshake_survives_error :
  let r1 := GitHubCallback.handleGitHubCallback (callback_with "c1" "s3cr3t") handshake
              exchange_fails in
  let r2 := GitHubCallback.handleGitHubCallback (callback_with "c2" "s3cr3t")
              (GitHubCallback.session_storage r1) exchange_and_link in
  GitHubCallback.final_status r1 = GitHubCallback.error /\
  getItem (GitHubCallback.session_storage r1) GitHubCallback.stateKey = Some "s3cr3t" /\
  getItem (GitHubCallback.session_storage r1) GitHubCallback.linkingUserKey = Some "7" /\
  GitHubCallback.final_status r2 = GitHubCallback.success /\
  GitHubCallback.statuses r2 = [GitHubCallback.linking; GitHubCallback.success] /\
  GitHubCallback.calls r2 = [GithubCallbackExchange; GithubLink].
Proof. cbv zeta. repeat split; vm_compute; reflexivity. Qed.

Lemma state_mismatch_rejected_witness :
  let r := GitHubCallback.handleGitHubCallback (callback_with "c1" "forged") handshake
             exchange_and_link in
  GitHubCallback.final_status r = GitHubCallback.error /\
  GitHubCallback.statuses r = [GitHubCallback.error] /\
  GitHubCallback.calls r = [] /\
  called GithubLink (GitHubCallback.calls r) = false /\
  GitHubCallback.session_storage r = handshake.
Proof.
  apply (state_mismatch_rejected (callback_with "c1" "forged") handshake exchange_and_link).
  right. vm_compute. discriminate.
Defined.

(** The same record with the matching state: [processing], then [linking],
    then [success], and the record is gone. *)
Example matching_state_links :
  let r := GitHubCallback.handleGitHubCallback (callback_with "c1" "s3cr3t") handshake
             exchange_and_link in
  GitHubCallback.statuses r = [GitHubCallback.linking; GitHubCallback.success] /\
  GitHubCallback.session_storage r = ∅.
Proof. cbv zeta. split; vm_compute; reflexivity. Qed.

(** * Further properties *)

(** ** The store beyond the three getters *)

Definition session_key (k : string) : Prop :=
  k = SessionManager.tokenKey \/ k = SessionManager.userKey \/ k = SessionManager.expiryKey.

Lemma clearSession_lookup (st : Storage) (k : string) :
  SessionManager.clearSession st !! k
  = if bool_decide (session_key k) then None else st !! k.
Proof.
  unfold SessionManager.clearSession, removeItem, session_key.
  case_bool_decide as Hk.
  - destruct Hk as [-> | [-> | ->]];
      rewrite ?lookup_delete_eq; try reflexivity;
      repeat (rewrite lookup_delete_ne by discriminate);
      rewrite ?lookup_delete_eq; reflexivity.
  - rewrite !lookup_delete_ne; [reflexivity | ..]; intros <-; apply Hk; auto.
Qed.

Lemma getUser_no_text (st : Storage) :
  st !! SessionManager.userKey = None -> SessionManager.getUser st = None.
Proof. intros H. unfold SessionManager.getUser, getItem. now rewrite H. Qed.

(** [clearSession()] removes the three session keys and nothing else; doing
    it twice is doing it once.  Afterwards every getter returns [null], no
    Authorization header is produced and the session is not valid, whatever
    the clock and the date parser. *)
Theorem clearSession_idempotent_frame (st : Storage) :
  let st' := SessionManager.clearSession st in
  SessionManager.clearSession st' = st' /\
  (forall k, ~ session_key k -> getItem st' k = getItem st k) /\
  SessionManager.getToken st' = None /\
  SessionManager.getUser st' = None /\
  SessionManager.getExpiry st' = None /\
  SessionManager.getAuthHeaders st' = [] /\
  (forall Date_parse t, SessionManager.isSessionValid Date_parse st' t = false).
Proof.
  cbv zeta.
  assert (Ht : SessionManager.getToken (SessionManager.clearSession st) = None).
  { unfold SessionManager.getToken, getItem. rewrite clearSession_lookup.
    rewrite bool_decide_eq_true_2; [reflexivity | now left]. }
  assert (Hu : SessionManager.clearSession st !! SessionManager.userKey = None).
  { rewrite clearSession_lookup.
    rewrite bool_decide_eq_true_2; [reflexivity | right; now left]. }
  assert (He : SessionManager.getExpiry (SessionManager.clearSession st) = None).
  { unfold SessionManager.getExpiry, getItem. rewrite clearSession_lookup.
    rewrite bool_decide_eq_true_2; [reflexivity | right; now right]. }
  repeat split.
  - apply map_eq. intros k. rewrite !clearSession_lookup. now case_bool_decide.
  - intros k Hk. unfold getItem. rewrite clearSession_lookup.
    now rewrite bool_decide_eq_false_2.
  - exact Ht.
  - now apply getUser_no_text.
  - exact He.
  - unfold SessionManager.getAuthHeaders. now rewrite Ht.
  - intros Date_parse t. unfold SessionManager.isSessionValid. now rewrite Ht.
Qed.

Lemma getToken_updateUser (st : Storage) (u : jsval) :
  SessionManager.getToken (SessionManager.updateUser st u) = SessionManager.getToken st.
Proof.
  unfold SessionManager.getToken, SessionManager.updateUser, getItem, setItem.
  now rewrite lookup_insert_ne by discriminate.
Qed.

(** The Authorization header depends on the stored token alone: there is
    none exactly when the token is missing or empty, otherwise it is
    [Bearer] and the token; [updateUser] does not change it, and after a
    [setSession] that stores the string [tok] it carries [tok]. *)
Theorem getAuthHeaders_bearer (st : Storage) :
  (SessionManager.getAuthHeaders st = [] <->
   truthy_item (SessionManager.getToken st) = false) /\
  (forall tok, SessionManager.getToken st = Some tok -> tok <> EmptyString ->
     SessionManager.getAuthHeaders st
     = [("Authorization", "Bearer " +:+ tok); ("Content-Type", "application/json")]) /\
  (forall u, SessionManager.getAuthHeaders (SessionManager.updateUser st u)
             = SessionManager.getAuthHeaders st) /\
  (forall tok u e, tok <> EmptyString ->
     fst (SessionManager.setSession st (Some (JStr tok)) u e) = true ->
     SessionManager.getAuthHeaders
       (snd (SessionManager.setSession st (Some (JStr tok)) u e))
     = [("Authorization", "Bearer " +:+ tok); ("Content-Type", "application/json")]).
Proof.
  assert (Hsome : forall st' tok, SessionManager.getToken st' = Some tok ->
            tok <> EmptyString ->
            SessionManager.getAuthHeaders st'
            = [("Authorization", "Bearer " +:+ tok); ("Content-Type", "application/json")]).
  { intros st' tok Ht Hne. unfold SessionManager.getAuthHeaders. rewrite Ht.
    destruct (String.eqb_spec tok EmptyString); [congruence | reflexivity]. }
  repeat split.
  - unfold SessionManager.getAuthHeaders.
    destruct (SessionManager.getToken st) as [tok|]; [| reflexivity].
    cbn [truthy_item]. destruct (String.eqb tok EmptyString); [reflexivity | discriminate].
  - unfold SessionManager.getAuthHeaders.
    destruct (SessionManager.getToken st) as [tok|]; [| reflexivity].
    cbn [truthy_item]. destruct (String.eqb tok EmptyString); [reflexivity | discriminate].
  - apply Hsome.
  - intros u. unfold SessionManager.getAuthHeaders. now rewrite getToken_updateUser.
  - intros tok u e Hne Hok. apply Hsome; [| exact Hne].
    destruct (truthy_val u) eqn:Hu; [destruct (truthy_val e) eqn:He |].
    + rewrite setSession_truthy; cbn [snd truthy_val truthy]; try assumption.
      * apply (written_fields st (Some (JStr tok)) u e).
      * destruct (String.eqb_spec tok EmptyString); [congruence | reflexivity].
    + rewrite setSession_falsy in Hok by auto. discriminate.
    + rewrite setSession_falsy in Hok by auto. discriminate.
Qed.

(** ** What a run of the reconciler can do *)

Lemma json_null_cases (j : json) : j = JNull \/ j <> JNull.
Proof. destruct j; [now left | right; discriminate ..]. Qed.

Lemma match_not_null {X : Type} (j : json) (a b : X) :
  j <> JNull -> match j with JNull => a | _ => b end = b.
Proof. destruct j; congruence. Qed.

Section ReconcilerRuns.

Variable Date_parse : string -> option Z.

(** The refresh either leaves the storage as it is or stores the token and
    the expiry of the answer's [session], with the user read back from the
    storage. *)
Lemma applyRefresh_cases (st : Storage) (r : FetchResult) :
  SessionManager.applyRefresh st r = st \/
  exists status refreshData session u,
    r = Response status (Some refreshData) /\ ok status = true /\
    refreshData <> JNull /\
    get_prop refreshData "session" = Some session /\ session <> JNull /\
    SessionManager.getUser st = Some u /\
    truthy_val (get_prop session "token") = true /\
    truthy_val (get_prop session "expires_at") = true /\
    SessionManager.applyRefresh st r
    = written st (get_prop session "token") (Some u) (get_prop session "expires_at").
Proof.
  unfold SessionManager.applyRefresh.
  destruct r as [|status [refreshData|]]; [now left | | destruct (ok status); now left].
  destruct (ok status) eqn:Hok; [| now left].
  destruct (json_null_cases refreshData) as [->|Hnull]; [now left |].
  rewrite (match_not_null refreshData) by assumption.
  destruct (get_prop refreshData "session") as [session|] eqn:Hs; [| now left].
  destruct (json_null_cases session) as [->|Hsn]; [now left |].
  rewrite (match_not_null session) by assumption.
  destruct (truthy_val (get_prop session "token")) eqn:Ht;
    [| rewrite setSession_falsy by auto; now left].
  destruct (SessionManager.getUser st) as [u|] eqn:Hu;
    [| rewrite setSession_falsy by auto; now left].
  destruct (truthy_val (get_prop session "expires_at")) eqn:He;
    [| rewrite setSession_falsy by auto; now left].
  assert (Htu : truthy_val (Some u) = true).
  { apply getUser_Some in Hu as (s & _ & _ & Hreq). cbn in Hreq.
    apply andb_prop in Hreq as [Hid _]. exact (truthy_of_prop u "id" Hid). }
  right. exists status, refreshData, session, u.
  rewrite setSession_truthy by assumption. cbn [snd]. repeat split; assumption.
Qed.

Definition locally_unusable (st : Storage) (t : Z) : Prop :=
  truthy_item (SessionManager.getToken st) = false \/
  SessionManager.getUser st = None \/
  SessionManager.isSessionValid Date_parse st t = false.

(** The four ways a run can go: stopped before any request; the answer of
    [/auth/me] unusable (no answer, a status outside 200..299 other than 401,
    or a body that is not JSON or is [null]); a 401; a confirmation. *)
Lemma checkAndRefreshSession_cases (st : Storage) (env : SessionManager.RunEnv) :
  let r := SessionManager.checkAndRefreshSession Date_parse st env in
  (locally_unusable st (SessionManager.now env) /\
   r = {| SessionManager.verdict := false;
          SessionManager.store := SessionManager.clearSession st;
          SessionManager.calls := [] |}) \/
  (SessionManager.isSessionValid Date_parse st (SessionManager.now env) = true /\
   (SessionManager.me_result env = NetworkError \/
    (exists status body, SessionManager.me_result env = Response status body /\
       ((ok status = false /\ status <> 401) \/
        (ok status = true /\ (body = None \/ body = Some JNull))))) /\
   r = {| SessionManager.verdict :=
            SessionManager.isSessionValid Date_parse st (SessionManager.later env);
          SessionManager.store := st;
          SessionManager.calls := [AuthMe] |}) \/
  (SessionManager.isSessionValid Date_parse st (SessionManager.now env) = true /\
   (exists body, SessionManager.me_result env = Response 401 body) /\
   r = {| SessionManager.verdict := false;
          SessionManager.store := SessionManager.clearSession st;
          SessionManager.calls := [AuthMe] |}) \/
  (SessionManager.isSessionValid Date_parse st (SessionManager.now env) = true /\
   exists status data d,
     SessionManager.me_result env = Response status (Some data) /\
     ok status = true /\ data <> JNull /\
     Date_parse (default EmptyString (SessionManager.getExpiry st)) = Some d /\
     let st1 := SessionManager.updateUser st (get_prop data "user") in
     (d - SessionManager.later env < 2 * 60 * 60 * 1000 /\
      r = {| SessionManager.verdict := true;
             SessionManager.store :=
               SessionManager.applyRefresh st1 (SessionManager.refresh_result env);
             SessionManager.calls := [AuthMe; AuthRefresh] |}) \/
     (2 * 60 * 60 * 1000 <= d - SessionManager.later env /\
      r = {| SessionManager.verdict := true;
             SessionManager.store := st1;
             SessionManager.calls := [AuthMe] |})).
Proof.
  cbv zeta. unfold SessionManager.checkAndRefreshSession.
  destruct (truthy_item (SessionManager.getToken st)) eqn:Htok; cbn [negb orb];
    [| left; split; [now left | reflexivity]].
  destruct (SessionManager.getUser st) as [u|] eqn:Hu;
    [| left; split; [right; now left | reflexivity]].
  cbn [negb].
  destruct (SessionManager.isSessionValid Date_parse st (SessionManager.now env)) eqn:Hv;
    cbn [negb]; [| left; split; [right; now right | reflexivity]].
  right.
  destruct (isSessionValid_true Date_parse st _ Hv) as (_ & _ & Hexp & d & Hd & _).
  destruct (SessionManager.me_result env) as [|status body] eqn:Hme.
  { left. split; [reflexivity |]. split; [now left | reflexivity]. }
  destruct (ok status) eqn:Hok.
  - destruct body as [data|].
    + destruct (json_null_cases data) as [->|Hnull].
      * left. split; [reflexivity |]. split; [| reflexivity].
        right. exists status, (Some JNull). split; [reflexivity |]. right. auto.
      * right. right. split; [reflexivity |]. exists status, data, d.
        rewrite (match_not_null data) by assumption.
        rewrite getExpiry_updateUser, Hexp, Hd.
        repeat split; try assumption.
        destruct (Z.ltb_spec (d - SessionManager.later env) (2 * 60 * 60 * 1000));
          [left | right]; split; (assumption || reflexivity).
    + left. split; [reflexivity |]. split; [| reflexivity].
      right. exists status, None. split; [reflexivity |]. right. auto.
  - destruct (Z.eqb_spec status 401) as [->|Hne].
    + right. left. split; [reflexivity |]. split; [eauto | reflexivity].
    + left. split; [reflexivity |]. split; [| reflexivity].
      right. exists status, body. split; [reflexivity |]. left. auto.
Qed.

Lemma valid_not_unusable (st : Storage) (t : Z) :
  SessionManager.isSessionValid Date_parse st t = true -> ~ locally_unusable st t.
Proof.
  intros Hv [H | [H | H]].
  - destruct (isSessionValid_true Date_parse st t Hv) as (Ht & _). congruence.
  - destruct (isSessionValid_true Date_parse st t Hv) as (_ & Hu & _).
    rewrite H in Hu. discriminate.
  - congruence.
Qed.

(** A run makes no request exactly when the token is missing or empty, the
    user snapshot is unusable or the session is locally invalid; it then
    clears the store and returns false. *)
Theorem no_request_iff_locally_unusable (st : Storage) (env : SessionManager.RunEnv) :
  let r := SessionManager.checkAndRefreshSession Date_parse st env in
  (SessionManager.calls r = [] <-> locally_unusable st (SessionManager.now env)) /\
  (SessionManager.calls r = [] ->
   SessionManager.verdict r = false /\
   SessionManager.store r = SessionManager.clearSession st).
Proof.
  cbv zeta.
  destruct (checkAndRefreshSession_cases st env)
    as [(Hun & ->) | [(Hv & _ & ->) | [(Hv & _ & ->) | (Hv & status & data & d & _ & _ & _ & _ & [(_ & ->) | (_ & ->)])]]];
    cbn [SessionManager.calls SessionManager.verdict SessionManager.store];
    (split; [split |]); try discriminate; try (intros; exfalso; eapply valid_not_unusable; eassumption);
    auto.
Qed.

Lemma written_lookup_other (st : Storage) (tv uv ev : jsval) (k : string) :
  ~ session_key k -> written st tv uv ev !! k = st !! k.
Proof.
  intros Hk. unfold written.
  rewrite !lookup_insert_ne; [reflexivity | ..]; intros <-; apply Hk; unfold session_key; auto.
Qed.

Lemma updateUser_lookup_other (st : Storage) (u : jsval) (k : string) :
  ~ session_key k -> SessionManager.updateUser st u !! k = st !! k.
Proof.
  intros Hk. unfold SessionManager.updateUser, setItem.
  rewrite lookup_insert_ne; [reflexivity |]. intros <-. apply Hk. unfold session_key. auto.
Qed.

(** Whatever the server answers, a run reads and writes the three session
    keys only: every other entry of [localStorage] is as before. *)
Theorem checkAndRefreshSession_frame (st : Storage) (env : SessionManager.RunEnv)
    (k : string) :
  ~ session_key k ->
  getItem (SessionManager.store (SessionManager.checkAndRefreshSession Date_parse st env)) k
  = getItem st k.
Proof.
  intros Hk. unfold getItem.
  destruct (checkAndRefreshSession_cases st env)
    as [(_ & ->) | [(_ & _ & ->) | [(_ & _ & ->) | (_ & status & data & d & _ & _ & _ & _ & [(_ & ->) | (_ & ->)])]]];
    cbn [SessionManager.store].
  - rewrite clearSession_lookup. now rewrite bool_decide_eq_false_2.
  - reflexivity.
  - rewrite clearSession_lookup. now rewrite bool_decide_eq_false_2.
  - destruct (applyRefresh_cases
                (SessionManager.updateUser st (get_prop data "user"))
                (SessionManager.refresh_result env))
      as [-> | (s2 & rd & sess & u & _ & _ & _ & _ & _ & _ & _ & _ & ->)].
    + now apply updateUser_lookup_other.
    + rewrite written_lookup_other by assumption. now apply updateUser_lookup_other.
  - now apply updateUser_lookup_other.
Qed.


Lemma applyRefresh_in_accepting (accepts : Accepts) (st : Storage) (r : FetchResult) :
  (forall s k v, accepts s k v = true) ->
  SessionManager.applyRefresh_in accepts st r = SessionManager.applyRefresh st r.
Proof.
  intros Hacc. unfold SessionManager.applyRefresh_in, SessionManager.applyRefresh.
  repeat case_match; try reflexivity; now rewrite setSession_in_accepting.
Qed.

(** Over a storage that accepts every write, [checkAndRefreshSession_in] is
    [checkAndRefreshSession]. *)
Lemma checkAndRefreshSession_in_accepting (accepts : Accepts) (st : Storage)
    (env : SessionManager.RunEnv) :
  (forall s k v, accepts s k v = true) ->
  SessionManager.checkAndRefreshSession_in Date_parse accepts st env
  = SessionManager.checkAndRefreshSession Date_parse st env.
Proof.
  intros Hacc.
  unfold SessionManager.checkAndRefreshSession_in, SessionManager.checkAndRefreshSession,
    SessionManager.updateUser_in, SessionManager.updateUser, setItem_in.
  repeat case_match; try reflexivity; try congruence;
    rewrite ?Hacc in *; simplify_eq;
    rewrite ?applyRefresh_in_accepting by assumption; try reflexivity; congruence.
Qed.



(** A run over a full storage: the refresh answer's expiry is longer than
    the stored one and its write is refused, so the run returns true with
    the new token beside the expiry of before. *)
Example refresh_replaces_token_alone :
  let r := SessionManager.checkAndRefreshSession_in iso_date_parse full_storage
             sample_storage server_up_millis in
  SessionManager.verdict r = true /\
  SessionManager.calls r = [AuthMe; AuthRefresh] /\
  SessionManager.getToken sample_storage = Some "t0" /\
  SessionManager.getToken (SessionManager.store r) = Some "t1" /\
  SessionManager.getExpiry (SessionManager.store r) = Some "2030-01-01T01:30:00Z".
Proof. cbv zeta. repeat split; vm_compute; reflexivity. Qed.

Lemma confirmed_run (st : Storage) (env : SessionManager.RunEnv) (status : Z)
    (data : json) :
  SessionManager.isSessionValid Date_parse st (SessionManager.now env) = true ->
  SessionManager.me_result env = Response status (Some data) ->
  ok status = true -> data <> JNull ->
  let r := SessionManager.checkAndRefreshSession Date_parse st env in
  let st1 := SessionManager.updateUser st (get_prop data "user") in
  SessionManager.verdict r = true /\
  ((SessionManager.store r = SessionManager.applyRefresh st1 (SessionManager.refresh_result env)
    /\ SessionManager.calls r = [AuthMe; AuthRefresh]) \/
   (SessionManager.store r = st1 /\ SessionManager.calls r = [AuthMe])) /\
  exists d, Date_parse (default EmptyString (SessionManager.getExpiry st)) = Some d /\
    (d - SessionManager.later env < 2 * 60 * 60 * 1000 ->
     SessionManager.store r
     = SessionManager.applyRefresh st1 (SessionManager.refresh_result env) /\
     SessionManager.calls r = [AuthMe; AuthRefresh]).
Proof.
  intros Hv Hme Hok Hnull. cbv zeta.
  destruct (checkAndRefreshSession_cases st env)
    as [(Hun & _) | [(_ & Hsoft & _) | [(_ & (b & H401) & _) | (_ & status' & data' & d & Hme' & _ & _ & Hd & Hr)]]].
  - exfalso. eapply valid_not_unusable; eassumption.
  - exfalso. destruct Hsoft as [H | (s' & b & H & [(Hk & _) | (_ & [-> | ->])])]; congruence.
  - exfalso. rewrite Hme in H401. injection H401 as -> _. discriminate.
  - rewrite Hme in Hme'. injection Hme' as <- <-. cbv zeta in Hr.
    destruct Hr as [(Hlt & ->) | (Hge & ->)];
      cbn [SessionManager.verdict SessionManager.store SessionManager.calls];
      (split; [reflexivity |]); (split; [auto |]); exists d; (split; [exact Hd |]);
      intros Hlt'; (split; [reflexivity || lia | reflexivity || lia]).
Qed.

(** After a confirmation that carries a well-formed [user], [getUser()]
    returns the server's snapshot, whether or not a refresh was attempted and
    whatever came of it. *)
Theorem confirmed_user_is_servers (st : Storage) (env : SessionManager.RunEnv)
    (status : Z) (data u : json) :
  SessionManager.isSessionValid Date_parse st (SessionManager.now env) = true ->
  SessionManager.me_result env = Response status (Some data) ->
  ok status = true ->
  get_prop data "user" = Some u ->
  unique_keys u = true -> has_required_fields (Some u) = true ->
  let r := SessionManager.checkAndRefreshSession Date_parse st env in
  SessionManager.verdict r = true /\
  SessionManager.getUser (SessionManager.store r) = Some u.
Proof.
  intros Hv Hme Hok Hu Hk Hreq. cbv zeta.
  assert (Hnull : data <> JNull) by (intros ->; discriminate).
  destruct (confirmed_run st env status data Hv Hme Hok Hnull) as (Hverdict & Hstore & _).
  split; [exact Hverdict |]. rewrite Hu in Hstore.
  assert (Hst1 : SessionManager.getUser (SessionManager.updateUser st (Some u)) = Some u).
  { rewrite (getUser_stored _ u Hk), Hreq; [reflexivity |].
    unfold SessionManager.updateUser, setItem. now simplify_map_eq. }
  destruct Hstore as [(-> & _) | (-> & _)]; [| exact Hst1].
  destruct (applyRefresh_cases (SessionManager.updateUser st (Some u))
              (SessionManager.refresh_result env))
    as [-> | (s2 & rd & sess & u' & _ & _ & _ & _ & _ & Hu' & _ & _ & ->)];
    [exact Hst1 |].
  rewrite Hst1 in Hu'. injection Hu' as <-.
  destruct (written_fields (SessionManager.updateUser st (Some u))
              (get_prop sess "token") (Some u) (get_prop sess "expires_at"))
    as (_ & Huser & _).
  rewrite (getUser_stored _ u Hk Huser), Hreq. reflexivity.
Qed.

Lemma updateUser_no_user (st : Storage) (userData : jsval) :
  (forall j, userData = Some j -> unique_keys j = true) ->
  has_required_fields userData = false ->
  SessionManager.getUser (SessionManager.updateUser st userData) = None.
Proof.
  intros Hk Hreq. destruct userData as [j|].
  - rewrite (getUser_stored _ j (Hk j eq_refl)), ?Hreq; [reflexivity |].
    unfold SessionManager.updateUser, setItem. now simplify_map_eq.
  - apply getUser_undefined. unfold SessionManager.updateUser, setItem.
    now simplify_map_eq.
Qed.

Lemma isSessionValid_needs_user (st : Storage) (t : Z) :
  SessionManager.getUser st = None -> SessionManager.isSessionValid Date_parse st t = false.
Proof.
  intros Hu. unfold SessionManager.isSessionValid. rewrite Hu. cbn [negb].
  now rewrite orb_true_r.
Qed.

(** A confirmation whose [user] is missing or lacks a truthy [id] or [email]
    still returns true, but leaves the store without a usable snapshot:
    [getUser()] is [null] and [isLoggedIn()] is false from then on, and no
    refresh changes token or expiry. *)
Theorem confirmed_without_user_logs_out (st : Storage) (env : SessionManager.RunEnv)
    (status : Z) (data : json) :
  SessionManager.isSessionValid Date_parse st (SessionManager.now env) = true ->
  SessionManager.me_result env = Response status (Some data) ->
  ok status = true -> data <> JNull ->
  (forall j, get_prop data "user" = Some j -> unique_keys j = true) ->
  has_required_fields (get_prop data "user") = false ->
  let r := SessionManager.checkAndRefreshSession Date_parse st env in
  SessionManager.verdict r = true /\
  SessionManager.store r = SessionManager.updateUser st (get_prop data "user") /\
  SessionManager.getUser (SessionManager.store r) = None /\
  (forall t, SessionManager.isLoggedIn Date_parse (SessionManager.store r) t = false).
Proof.
  intros Hv Hme Hok Hnull Hk Hreq. cbv zeta.
  destruct (confirmed_run st env status data Hv Hme Hok Hnull) as (Hverdict & Hstore & _).
  pose proof (updateUser_no_user st (get_prop data "user") Hk Hreq) as Hnone.
  assert (Hs : SessionManager.store (SessionManager.checkAndRefreshSession Date_parse st env)
               = SessionManager.updateUser st (get_prop data "user")).
  { destruct Hstore as [(-> & _) | (-> & _)]; [| reflexivity].
    destruct (applyRefresh_cases (SessionManager.updateUser st (get_prop data "user"))
                (SessionManager.refresh_result env))
      as [-> | (s2 & rd & sess & u' & _ & _ & _ & _ & _ & Hu' & _)]; [reflexivity |].
    congruence. }
  rewrite Hs. repeat split; try assumption.
  intros t. unfold SessionManager.isLoggedIn.
  now rewrite (isSessionValid_needs_user _ t Hnone).
Qed.

(** A refresh that succeeds, less than two hours before the expiry: the
    store then holds the token and the expiry of the answer and the user the
    confirmation carried, and the Authorization header is built from the new
    token. *)
Theorem refresh_success_replaces_session (st : Storage) (env : SessionManager.RunEnv)
    (status status' : Z) (data u refreshData session : json) (e tok exp : string) (d : Z) :
  SessionManager.isSessionValid Date_parse st (SessionManager.now env) = true ->
  SessionManager.me_result env = Response status (Some data) -> ok status = true ->
  get_prop data "user" = Some u ->
  unique_keys u = true -> has_required_fields (Some u) = true ->
  SessionManager.getExpiry st = Some e -> Date_parse e = Some d ->
  d - SessionManager.later env < 2 * 60 * 60 * 1000 ->
  SessionManager.refresh_result env = Response status' (Some refreshData) ->
  ok status' = true ->
  get_prop refreshData "session" = Some session ->
  get_prop session "token" = Some (JStr tok) -> tok <> EmptyString ->
  get_prop session "expires_at" = Some (JStr exp) -> exp <> EmptyString ->
  let r := SessionManager.checkAndRefreshSession Date_parse st env in
  SessionManager.verdict r = true /\
  SessionManager.calls r = [AuthMe; AuthRefresh] /\
  SessionManager.getToken (SessionManager.store r) = Some tok /\
  SessionManager.getUser (SessionManager.store r) = Some u /\
  SessionManager.getExpiry (SessionManager.store r) = Some exp /\
  SessionManager.getAuthHeaders (SessionManager.store r)
  = [("Authorization", "Bearer " +:+ tok); ("Content-Type", "application/json")].
Proof.
  intros Hv Hme Hok Hu Hk Hreq He Hd Hlt Hrr Hok' Hs Htok Htne Hexp Hene. cbv zeta.
  assert (Hnull : data <> JNull) by (intros ->; discriminate).
  destruct (confirmed_run st env status data Hv Hme Hok Hnull)
    as (Hverdict & _ & d' & Hd' & Hwithin).
  rewrite He in Hd'. cbn [default from_option id] in Hd'.
  assert (d' = d) as -> by congruence.
  destruct (Hwithin Hlt) as (Hstore & Hcalls).
  rewrite Hstore, Hu.
  assert (Hst1 : SessionManager.getUser (SessionManager.updateUser st (Some u)) = Some u).
  { rewrite (getUser_stored _ u Hk), Hreq; [reflexivity |].
    unfold SessionManager.updateUser, setItem. now simplify_map_eq. }
  assert (Hap : SessionManager.applyRefresh (SessionManager.updateUser st (Some u))
                  (SessionManager.refresh_result env)
                = written (SessionManager.updateUser st (Some u)) (Some (JStr tok))
                    (Some u) (Some (JStr exp))).
  { unfold SessionManager.applyRefresh. rewrite Hrr, Hok'.
    assert (Hrn : refreshData <> JNull) by (intros ->; discriminate).
    assert (Hsn : session <> JNull) by (intros ->; discriminate).
    rewrite (match_not_null refreshData) by assumption. rewrite Hs.
    rewrite (match_not_null session) by assumption.
    rewrite Hst1, Htok, Hexp. rewrite setSession_truthy; [reflexivity | ..]; cbn [truthy_val truthy].
    - destruct (String.eqb_spec tok EmptyString); [congruence | reflexivity].
    - apply andb_prop in Hreq as [Hid _]. exact (truthy_of_prop u "id" Hid).
    - destruct (String.eqb_spec exp EmptyString); [congruence | reflexivity]. }
  rewrite Hap.
  destruct (written_fields (SessionManager.updateUser st (Some u)) (Some (JStr tok))
              (Some u) (Some (JStr exp))) as (Ht & Huser & Hex).
  cbn [to_string_val js_to_string] in Ht, Hex.
  repeat split; try assumption.
  - rewrite (getUser_stored _ u Hk Huser), Hreq. reflexivity.
  - unfold SessionManager.getAuthHeaders. rewrite Ht.
    destruct (String.eqb_spec tok EmptyString); [congruence | reflexivity].
Qed.

(** A refresh that fails (no answer, a status outside 200..299, or a body
    that is not JSON) is swallowed: the run still returns true, and the store
    is the one the confirmation left, with token and expiry as before. *)
Theorem refresh_failure_is_swallowed (st : Storage) (env : SessionManager.RunEnv)
    (status : Z) (data : json) :
  SessionManager.isSessionValid Date_parse st (SessionManager.now env) = true ->
  SessionManager.me_result env = Response status (Some data) -> ok status = true ->
  data <> JNull ->
  (SessionManager.refresh_result env = NetworkError \/
   exists status' body, SessionManager.refresh_result env = Response status' body /\
                        (ok status' = false \/ body = None)) ->
  let r := SessionManager.checkAndRefreshSession Date_parse st env in
  SessionManager.verdict r = true /\
  SessionManager.store r = SessionManager.updateUser st (get_prop data "user") /\
  SessionManager.getToken (SessionManager.store r) = SessionManager.getToken st /\
  SessionManager.getExpiry (SessionManager.store r) = SessionManager.getExpiry st.
Proof.
  intros Hv Hme Hok Hnull Hfail. cbv zeta.
  destruct (confirmed_run st env status data Hv Hme Hok Hnull) as (Hverdict & Hstore & _).
  assert (Hs : SessionManager.store (SessionManager.checkAndRefreshSession Date_parse st env)
               = SessionManager.updateUser st (get_prop data "user")).
  { destruct Hstore as [(-> & _) | (-> & _)]; [| reflexivity].
    unfold SessionManager.applyRefresh.
    destruct Hfail as [-> | (s' & b & -> & [-> | ->])]; try reflexivity.
    now destruct (ok s'). }
  rewrite Hs, getToken_updateUser, getExpiry_updateUser. auto.
Qed.

End ReconcilerRuns.

(** ** The session as the clock advances *)

Section SessionAges.

Variable Date_parse : string -> option Z.

Lemma floor_minutes_lt (a k : Z) : Z.max 0 (a / (1000 * 60)) < k <-> (0 < k /\ a < k * 60000).
Proof.
  change (1000 * 60) with 60000. split.
  - intros H. split; [lia |].
    destruct (Z.lt_ge_cases a (k * 60000)) as [|Hge]; [assumption |].
    assert (k <= a / 60000) by (apply Z.div_le_lower_bound; lia). lia.
  - intros [Hk Ha].
    assert (a / 60000 < k) by (apply Z.div_lt_upper_bound; lia). lia.
Qed.

(** [isSessionExpiringSoon()] on a stored date is true exactly when fewer
    than 30 minutes, that is 1 800 000 ms, remain (also once the date is
    past); a store with no expiry, or an empty one, counts as expiring
    soon. *)
Theorem isSessionExpiringSoon_threshold (st : Storage) (t : Z) :
  (truthy_item (SessionManager.getExpiry st) = false ->
   SessionManager.isSessionExpiringSoon Date_parse st t = true) /\
  (forall e d, SessionManager.getExpiry st = Some e -> e <> EmptyString ->
     Date_parse e = Some d ->
     (SessionManager.isSessionExpiringSoon Date_parse st t = true <-> d - t < 1800000)).
Proof.
  unfold SessionManager.isSessionExpiringSoon, SessionManager.getTimeUntilExpiry. split.
  - now intros ->.
  - intros e d -> Hne Hd. cbn [truthy_item default from_option id].
    destruct (String.eqb_spec e EmptyString); [congruence |].
    cbn [negb num_ltb]. rewrite Hd. cbn [num_ltb].
    rewrite Z.ltb_lt, floor_minutes_lt. lia.
Qed.

(** With the store unchanged and the clock moving forward, the minutes left
    never grow, a session that is invalid stays invalid, and one that is
    expiring soon stays so. *)
Theorem session_only_ages (st : Storage) (t t' : Z) :
  t <= t' ->
  (SessionManager.isSessionValid Date_parse st t' = true ->
   SessionManager.isSessionValid Date_parse st t = true) /\
  (forall m m', SessionManager.getTimeUntilExpiry Date_parse st t = Num m ->
                SessionManager.getTimeUntilExpiry Date_parse st t' = Num m' -> m' <= m) /\
  (SessionManager.isSessionExpiringSoon Date_parse st t = true ->
   SessionManager.isSessionExpiringSoon Date_parse st t' = true).
Proof.
  intros Ht.
  assert (Hmin : forall m m', SessionManager.getTimeUntilExpiry Date_parse st t = Num m ->
                 SessionManager.getTimeUntilExpiry Date_parse st t' = Num m' -> m' <= m).
  { unfold SessionManager.getTimeUntilExpiry.
    destruct (truthy_item (SessionManager.getExpiry st)); cbn [negb];
      [| intros m m' [= <-] [= <-]; lia].
    destruct (Date_parse (default EmptyString (SessionManager.getExpiry st))) as [d|];
      [| discriminate].
    intros m m' [= <-] [= <-].
    assert ((d - t') / (1000 * 60) <= (d - t) / (1000 * 60))
      by (apply Z.div_le_mono; lia).
    lia. }
  repeat split.
  - unfold SessionManager.isSessionValid.
    destruct (negb (truthy_item (SessionManager.getToken st))
              || negb (truthy_item (SessionManager.getExpiry st))
              || negb (bool_decide (is_Some (SessionManager.getUser st))));
      [discriminate |].
    destruct (Date_parse (default EmptyString (SessionManager.getExpiry st))) as [d|];
      [| discriminate].
    rewrite !Z.ltb_lt. lia.
  - exact Hmin.
  - unfold SessionManager.isSessionExpiringSoon.
    destruct (SessionManager.getTimeUntilExpiry Date_parse st t) as [|m] eqn:Hm;
      [discriminate |].
    destruct (SessionManager.getTimeUntilExpiry Date_parse st t') as [|m'] eqn:Hm'.
    + exfalso. revert Hm Hm'. unfold SessionManager.getTimeUntilExpiry.
      destruct (truthy_item (SessionManager.getExpiry st)); cbn [negb]; [| discriminate].
      destruct (Date_parse (default EmptyString (SessionManager.getExpiry st)));
        discriminate.
    + cbn [num_ltb]. rewrite !Z.ltb_lt. specialize (Hmin m m' eq_refl eq_refl). lia.
Qed.

End SessionAges.

(** ** Profile echoes *)

(** [updateUser] with a well-formed snapshot, as the profile view calls it
    with the server's answer: [getUser()] then returns that snapshot, token
    and expiry are untouched, and a session that was valid stays valid. *)
Theorem updateUser_replaces_snapshot (Date_parse : string -> option Z) (st : Storage)
    (u : json) :
  unique_keys u = true -> has_required_fields (Some u) = true ->
  let st' := SessionManager.updateUser st (Some u) in
  SessionManager.getUser st' = Some u /\
  SessionManager.getToken st' = SessionManager.getToken st /\
  SessionManager.getExpiry st' = SessionManager.getExpiry st /\
  (forall t, SessionManager.isSessionValid Date_parse st t = true ->
             SessionManager.isSessionValid Date_parse st' t = true).
Proof.
  intros Hk Hreq. cbv zeta.
  assert (Hu : SessionManager.getUser (SessionManager.updateUser st (Some u)) = Some u).
  { rewrite (getUser_stored _ u Hk), Hreq; [reflexivity |].
    unfold SessionManager.updateUser, setItem. now simplify_map_eq. }
  repeat split.
  - exact Hu.
  - apply getToken_updateUser.
  - apply getExpiry_updateUser.
  - intros t Hv.
    destruct (isSessionValid_true Date_parse st t Hv) as (Htok & _ & Hexp & d & Hd & Hlt).
    unfold SessionManager.isSessionValid.
    rewrite getToken_updateUser, getExpiry_updateUser, Hu, Htok, Hexp, Hd.
    cbn. now apply Z.ltb_lt.
Qed.

(** ** Runs of the OAuth callback *)

Definition handshake_key (k : string) : Prop :=
  k = GitHubCallback.stateKey \/ k = GitHubCallback.linkingUserKey.

Definition run_of (statuses : list GitHubCallback.Status) (ss : Storage)
    (calls : list Endpoint) (redirect : bool) : GitHubCallback.Run :=
  {| GitHubCallback.statuses := statuses; GitHubCallback.session_storage := ss;
     GitHubCallback.calls := calls; GitHubCallback.redirect_scheduled := redirect |}.

Lemma handleGitHubCallback_shapes (p : GitHubCallback.Params) (ss : Storage)
    (env : GitHubCallback.Env) :
  let r := GitHubCallback.handleGitHubCallback p ss env in
  r = run_of [GitHubCallback.error] ss [] false \/
  r = run_of [GitHubCallback.error] ss [GithubCallbackExchange] false \/
  r = run_of [GitHubCallback.success] (GitHubCallback.cleanUp ss)
        [GithubCallbackExchange] true \/
  r = run_of [GitHubCallback.linking; GitHubCallback.error] ss
        [GithubCallbackExchange] false \/
  r = run_of [GitHubCallback.linking; GitHubCallback.error] ss
        [GithubCallbackExchange; GithubLink] false \/
  r = run_of [GitHubCallback.linking; GitHubCallback.success] (GitHubCallback.cleanUp ss)
        [GithubCallbackExchange; GithubLink] true.
Proof.
  cbv zeta. unfold GitHubCallback.handleGitHubCallback, GitHubCallback.linkGitHubAccount, run_of.
  repeat case_match; cbn [app]; auto 10.
Qed.

(** The six shapes a run of the callback can have.  The statuses set are
    [error], [success], or [linking] followed by one of the two; the exchange
    request comes before the link request, which is made only under
    [linking]; the record is removed and the redirect scheduled exactly in
    the runs that end in [success]. *)
Theorem callback_run_shapes (p : GitHubCallback.Params) (ss : Storage)
    (env : GitHubCallback.Env) :
  let r := GitHubCallback.handleGitHubCallback p ss env in
  r = run_of [GitHubCallback.error] ss [] false \/
  r = run_of [GitHubCallback.error] ss [GithubCallbackExchange] false \/
  r = run_of [GitHubCallback.success] (GitHubCallback.cleanUp ss)
        [GithubCallbackExchange] true \/
  r = run_of [GitHubCallback.linking; GitHubCallback.error] ss
        [GithubCallbackExchange] false \/
  r = run_of [GitHubCallback.linking; GitHubCallback.error] ss
        [GithubCallbackExchange; GithubLink] false \/
  r = run_of [GitHubCallback.linking; GitHubCallback.success] (GitHubCallback.cleanUp ss)
        [GithubCallbackExchange; GithubLink] true.
Proof. exact (handleGitHubCallback_shapes p ss env). Qed.

(** The checks that come before any request. *)
Definition passes_checks (p : GitHubCallback.Params) (ss : Storage) : Prop :=
  truthy_item (GitHubCallback.error_param p) = false /\
  truthy_item (GitHubCallback.code p) = true /\
  truthy_item (getItem ss GitHubCallback.stateKey) = true /\
  getItem ss GitHubCallback.stateKey = GitHubCallback.state p /\
  truthy_item (getItem ss GitHubCallback.linkingUserKey) = true.

Lemma after_checks (p : GitHubCallback.Params) (ss : Storage) (env : GitHubCallback.Env) :
  passes_checks p ss ->
  GitHubCallback.handleGitHubCallback p ss env
  = match GitHubCallback.callback_result env with
    | NetworkError => run_of [GitHubCallback.error] ss [GithubCallbackExchange] false
    | Response status body =>
        if negb (ok status) then run_of [GitHubCallback.error] ss [GithubCallbackExchange] false
        else
          match body with
          | None | Some JNull =>
              run_of [GitHubCallback.error] ss [GithubCallbackExchange] false
          | Some callbackData =>
              if truthy_val (get_prop callbackData "github_linked") then
                run_of [GitHubCallback.success] (GitHubCallback.cleanUp ss)
                  [GithubCallbackExchange] true
              else
                GitHubCallback.linkGitHubAccount ss [GitHubCallback.linking]
                  [GithubCallbackExchange] (get_prop callbackData "github_user")
                  (GitHubCallback.link_result env)
          end
    end.
Proof.
  intros (He & Hc & Hs & Heq & Hu). unfold GitHubCallback.handleGitHubCallback.
  rewrite He, Hc, Hs, Hu, (bool_decide_eq_true_2 _ Heq). reflexivity.
Qed.

Lemma without_checks (p : GitHubCallback.Params) (ss : Storage) (env : GitHubCallback.Env) :
  ~ passes_checks p ss ->
  GitHubCallback.handleGitHubCallback p ss env = run_of [GitHubCallback.error] ss [] false.
Proof.
  intros Hn. unfold GitHubCallback.handleGitHubCallback, passes_checks in *.
  destruct (truthy_item (GitHubCallback.error_param p)); [reflexivity |].
  destruct (truthy_item (GitHubCallback.code p)); [| reflexivity]. cbn [negb].
  destruct (truthy_item (getItem ss GitHubCallback.stateKey)); [| reflexivity].
  case_bool_decide as Heq; [| reflexivity]. cbn [negb orb].
  destruct (truthy_item (getItem ss GitHubCallback.linkingUserKey)); [| reflexivity].
  exfalso. apply Hn. auto.
Qed.

(** The exchange request is made exactly when the provider reported no
    error, a code arrived, a non-empty state is stored and equals the one
    returned, and a linking user id is stored.  In particular a provider
    error or a missing code ends the run in [error] with no request and the
    storage untouched, whatever the handshake record holds. *)
Theorem exchange_iff_checks_pass (p : GitHubCallback.Params) (ss : Storage)
    (env : GitHubCallback.Env) :
  let r := GitHubCallback.handleGitHubCallback p ss env in
  (called GithubCallbackExchange (GitHubCallback.calls r) = true <-> passes_checks p ss) /\
  (truthy_item (GitHubCallback.error_param p) = true \/
   truthy_item (GitHubCallback.code p) = false ->
   r = run_of [GitHubCallback.error] ss [] false).
Proof.
  cbv zeta. split; [split |].
  - intros Hc.
    destruct (truthy_item (GitHubCallback.error_param p)) eqn:He;
      [rewrite without_checks in Hc by (intros (H & _); congruence); discriminate |].
    destruct (truthy_item (GitHubCallback.code p)) eqn:Hcode;
      [| rewrite without_checks in Hc by (intros (_ & H & _); congruence); discriminate].
    destruct (truthy_item (getItem ss GitHubCallback.stateKey)) eqn:Hs;
      [| rewrite without_checks in Hc by (intros (_ & _ & H & _); congruence); discriminate].
    destruct (truthy_item (getItem ss GitHubCallback.linkingUserKey)) eqn:Hu;
      [| rewrite without_checks in Hc by (intros (_ & _ & _ & _ & H); congruence);
         discriminate].
    destruct (decide (getItem ss GitHubCallback.stateKey = GitHubCallback.state p))
      as [Heq | Hne];
      [| rewrite without_checks in Hc by (intros (_ & _ & _ & H & _); congruence);
         discriminate].
    repeat split; assumption.
  - intros Hp. rewrite (after_checks p ss env Hp).
    unfold GitHubCallback.linkGitHubAccount, run_of.
    repeat case_match; reflexivity.
  - intros H. apply without_checks. intros (He & Hc & _). destruct H; congruence.
Qed.

(** The exchange answered that the account is not linked yet and named the
    GitHub user. *)
Definition exchange_asks_to_link (env : GitHubCallback.Env) : Prop :=
  exists status data githubUser,
    GitHubCallback.callback_result env = Response status (Some data) /\
    ok status = true /\ data <> JNull /\
    truthy_val (get_prop data "github_linked") = false /\
    get_prop data "github_user" = Some githubUser /\ githubUser <> JNull.

Lemma link_entered (p : GitHubCallback.Params) (ss : Storage) (env : GitHubCallback.Env) :
  passes_checks p ss -> exchange_asks_to_link env ->
  GitHubCallback.handleGitHubCallback p ss env
  = match GitHubCallback.link_result env with
    | NetworkError =>
        run_of [GitHubCallback.linking; GitHubCallback.error] ss
          [GithubCallbackExchange; GithubLink] false
    | Response status body =>
        if negb (ok status) then
          run_of [GitHubCallback.linking; GitHubCallback.error] ss
            [GithubCallbackExchange; GithubLink] false
        else
          match body with
          | None =>
              run_of [GitHubCallback.linking; GitHubCallback.error] ss
                [GithubCallbackExchange; GithubLink] false
          | Some _ =>
              run_of [GitHubCallback.linking; GitHubCallback.success]
                (GitHubCallback.cleanUp ss) [GithubCallbackExchange; GithubLink] true
          end
    end.
Proof.
  intros Hp (status & data & gu & Hcb & Hok & Hnull & Hlinked & Hgu & Hgn).
  rewrite (after_checks p ss env Hp), Hcb, Hok. cbn [negb].
  rewrite (match_not_null data) by assumption. rewrite Hlinked, Hgu.
  unfold GitHubCallback.linkGitHubAccount.
  rewrite (match_not_null gu) by assumption.
  unfold run_of. repeat case_match; reflexivity.
Qed.

(** The link request is made exactly when the checks pass and the exchange
    answers, with a status in 200..299 and a JSON body other than [null],
    that the account is not linked and which GitHub user it is. *)
Theorem link_request_iff (p : GitHubCallback.Params) (ss : Storage)
    (env : GitHubCallback.Env) :
  called GithubLink (GitHubCallback.calls (GitHubCallback.handleGitHubCallback p ss env))
  = true
  <-> passes_checks p ss /\ exchange_asks_to_link env.
Proof.
  split.
  - intros Hc.
    assert (Hp : passes_checks p ss).
    { destruct (truthy_item (GitHubCallback.error_param p)) eqn:He;
        [rewrite without_checks in Hc by (intros (H & _); congruence); discriminate |].
      destruct (truthy_item (GitHubCallback.code p)) eqn:Hcode;
        [| rewrite without_checks in Hc by (intros (_ & H & _); congruence); discriminate].
      destruct (truthy_item (getItem ss GitHubCallback.stateKey)) eqn:Hs;
        [| rewrite without_checks in Hc by (intros (_ & _ & H & _); congruence);
           discriminate].
      destruct (truthy_item (getItem ss GitHubCallback.linkingUserKey)) eqn:Hu;
        [| rewrite without_checks in Hc by (intros (_ & _ & _ & _ & H); congruence);
           discriminate].
      destruct (decide (getItem ss GitHubCallback.stateKey = GitHubCallback.state p))
        as [Heq | Hne];
        [| rewrite without_checks in Hc by (intros (_ & _ & _ & H & _); congruence);
           discriminate].
      repeat split; assumption. }
    split; [exact Hp |].
    rewrite (after_checks p ss env Hp) in Hc. unfold exchange_asks_to_link.
    destruct (GitHubCallback.callback_result env) as [|status [data|]];
      [discriminate | | destruct (ok status); discriminate].
    destruct (ok status) eqn:Hok; cbn [negb] in Hc; [| discriminate].
    destruct (json_null_cases data) as [->|Hnull]; [discriminate |].
    rewrite (match_not_null data) in Hc by assumption.
    destruct (truthy_val (get_prop data "github_linked")) eqn:Hl; [discriminate |].
    unfold GitHubCallback.linkGitHubAccount in Hc.
    destruct (get_prop data "github_user") as [gu|] eqn:Hgu; [| discriminate].
    destruct (json_null_cases gu) as [->|Hgn]; [discriminate |].
    exists status, data, gu. repeat split; assumption.
  - intros [Hp Hex]. rewrite (link_entered p ss env Hp Hex).
    unfold run_of. repeat case_match; reflexivity.
Qed.

(** Once the link request is made, its answer decides: a status in 200..299
    with a JSON body ends in [success] after [linking], removes the handshake
    record and schedules the redirect; no answer, another status or a body
    that is not JSON ends in [error] after [linking] and keeps the record. *)
Theorem link_answer_decides (p : GitHubCallback.Params) (ss : Storage)
    (env : GitHubCallback.Env) :
  passes_checks p ss -> exchange_asks_to_link env ->
  let r := GitHubCallback.handleGitHubCallback p ss env in
  ((exists status body, GitHubCallback.link_result env = Response status (Some body) /\
                        ok status = true) ->
   r = run_of [GitHubCallback.linking; GitHubCallback.success] (GitHubCallback.cleanUp ss)
         [GithubCallbackExchange; GithubLink] true) /\
  ((GitHubCallback.link_result env = NetworkError \/
    exists status body, GitHubCallback.link_result env = Response status body /\
                        (ok status = false \/ body = None)) ->
   r = run_of [GitHubCallback.linking; GitHubCallback.error] ss
         [GithubCallbackExchange; GithubLink] false).
Proof.
  intros Hp Hex. cbv zeta. rewrite (link_entered p ss env Hp Hex). split.
  - intros (status & body & -> & ->). reflexivity.
  - intros [-> | (status & body & -> & [-> | ->])]; try reflexivity.
    now destruct (ok status).
Qed.

(** When the exchange answers that the account is already linked, the run
    ends in [success] at once: the record is removed, the redirect scheduled,
    and the link request is not made, whatever its answer would have been. *)
Theorem already_linked_skips_link (p : GitHubCallback.Params) (ss : Storage)
    (env : GitHubCallback.Env) (status : Z) (data : json) :
  passes_checks p ss ->
  GitHubCallback.callback_result env = Response status (Some data) -> ok status = true ->
  truthy_val (get_prop data "github_linked") = true ->
  GitHubCallback.handleGitHubCallback p ss env
  = run_of [GitHubCallback.success] (GitHubCallback.cleanUp ss) [GithubCallbackExchange] true.
Proof.
  intros Hp Hcb Hok Hl. rewrite (after_checks p ss env Hp), Hcb, Hok. cbn [negb].
  assert (Hnull : data <> JNull) by (intros ->; discriminate).
  rewrite (match_not_null data) by assumption. now rewrite Hl.
Qed.

Lemma cleanUp_lookup (ss : Storage) (k : string) :
  GitHubCallback.cleanUp ss !! k = if bool_decide (handshake_key k) then None else ss !! k.
Proof.
  unfold GitHubCallback.cleanUp, removeItem, handshake_key.
  case_bool_decide as Hk.
  - destruct Hk as [-> | ->]; rewrite ?lookup_delete_eq; try reflexivity.
    rewrite lookup_delete_ne by discriminate. apply lookup_delete_eq.
  - rewrite !lookup_delete_ne; [reflexivity | ..]; intros <-; apply Hk; auto.
Qed.

(** Neither the callback nor [handleRetry] touches an entry of
    [sessionStorage] other than the two of the handshake record, and
    [handleRetry] twice is [handleRetry] once. *)
Theorem callback_frame (p : GitHubCallback.Params) (ss : Storage)
    (env : GitHubCallback.Env) (k : string) :
  ~ handshake_key k ->
  getItem (GitHubCallback.session_storage (GitHubCallback.handleGitHubCallback p ss env)) k
  = getItem ss k /\
  getItem (GitHubCallback.handleRetry ss) k = getItem ss k /\
  GitHubCallback.handleRetry (GitHubCallback.handleRetry ss) = GitHubCallback.handleRetry ss.
Proof.
  intros Hk. unfold getItem, GitHubCallback.handleRetry.
  assert (Hc : GitHubCallback.cleanUp ss !! k = ss !! k)
    by (rewrite cleanUp_lookup; now rewrite bool_decide_eq_false_2).
  repeat split.
  - destruct (handleGitHubCallback_shapes p ss env) as [-> | [-> | [-> | [-> | [-> | ->]]]]];
      cbn [run_of GitHubCallback.session_storage]; auto.
  - exact Hc.
  - apply map_eq. intros k'. rewrite !cleanUp_lookup. now case_bool_decide.
Qed.

(** ** Starting the handshake *)

Definition started (ss : Storage) (redirect : option string) (alerted : bool)
  : GitHubIntegration.Started :=
  {| GitHubIntegration.session_storage := ss;
     GitHubIntegration.redirect_to := redirect;
     GitHubIntegration.alerted := alerted |}.

(** [initiateGitHubLogin] ends in one of three ways: it alerts with
    [sessionStorage] untouched; it alerts after storing the state only (an
    answer arrived but the [userData] prop is [undefined] or [null]); or it
    stores both entries of the handshake record and sends the page to the
    answer's [auth_url].  So the page never leaves for the provider without
    both entries stored. *)
Theorem initiateGitHubLogin_outcomes (ss : Storage) (userData : jsval) (r : FetchResult) :
  let out := GitHubIntegration.initiateGitHubLogin ss userData r in
  out = started ss None true \/
  (exists status data,
     r = Response status (Some data) /\ ok status = true /\ data <> JNull /\
     (userData = None \/ userData = Some JNull) /\
     out = started (<[GitHubCallback.stateKey := to_string_val (get_prop data "state")]> ss)
             None true) \/
  (exists status data u,
     r = Response status (Some data) /\ ok status = true /\ data <> JNull /\
     userData = Some u /\ u <> JNull /\
     out = started
             (<[GitHubCallback.linkingUserKey := to_string_val (get_prop u "id")]>
                (<[GitHubCallback.stateKey := to_string_val (get_prop data "state")]> ss))
             (Some (to_string_val (get_prop data "auth_url"))) false).
Proof.
  cbv zeta. unfold GitHubIntegration.initiateGitHubLogin, started, setItem.
  destruct r as [|status [data|]]; [now left | | destruct (ok status); now left].
  destruct (ok status) eqn:Hok; [| now left].
  destruct (json_null_cases data) as [->|Hnull]; [now left |].
  rewrite (match_not_null data) by assumption.
  destruct userData as [u|].
  - destruct (json_null_cases u) as [->|Hu].
    + right. left. exists status, data. repeat split; auto.
    + right. right. exists status, data, u.
      rewrite (match_not_null u) by assumption. repeat split; auto.
  - right. left. exists status, data. repeat split; auto.
Qed.

(** The handshake survives the redirect: after a started handshake, a
    callback that brings a code and the stored state text passes every check
    and makes the exchange request, and one that brings any other state is
    rejected before any request.  The stored state is the text of the
    answer's [state]; an answer without one stores the text [undefined]. *)
Theorem started_handshake_is_accepted (ss : Storage) (u data : json) (status : Z) :
  ok status = true -> data <> JNull -> u <> JNull ->
  to_string_val (get_prop data "state") <> EmptyString ->
  to_string_val (get_prop u "id") <> EmptyString ->
  let out := GitHubIntegration.initiateGitHubLogin ss (Some u)
               (Response status (Some data)) in
  let ss' := GitHubIntegration.session_storage out in
  GitHubIntegration.redirect_to out = Some (to_string_val (get_prop data "auth_url")) /\
  getItem ss' GitHubCallback.stateKey = Some (to_string_val (get_prop data "state")) /\
  getItem ss' GitHubCallback.linkingUserKey = Some (to_string_val (get_prop u "id")) /\
  forall c s env,
    c <> EmptyString ->
    let r := GitHubCallback.handleGitHubCallback
               {| GitHubCallback.code := Some c; GitHubCallback.state := Some s;
                  GitHubCallback.error_param := None |} ss' env in
    (s = to_string_val (get_prop data "state") ->
     called GithubCallbackExchange (GitHubCallback.calls r) = true) /\
    (s <> to_string_val (get_prop data "state") ->
     r = run_of [GitHubCallback.error] ss' [] false).
Proof.
  intros Hok Hnull Hu Hs Hid. cbv zeta.
  unfold GitHubIntegration.initiateGitHubLogin. rewrite Hok.
  rewrite (match_not_null data), (match_not_null u) by assumption.
  cbn [GitHubIntegration.session_storage GitHubIntegration.redirect_to].
  assert (Hst : getItem (setItem (setItem ss GitHubCallback.stateKey
                                    (to_string_val (get_prop data "state")))
                           GitHubCallback.linkingUserKey (to_string_val (get_prop u "id")))
                  GitHubCallback.stateKey
                = Some (to_string_val (get_prop data "state"))).
  { unfold getItem, setItem. rewrite lookup_insert_ne by discriminate.
    apply lookup_insert_eq. }
  assert (Hli : getItem (setItem (setItem ss GitHubCallback.stateKey
                                    (to_string_val (get_prop data "state")))
                           GitHubCallback.linkingUserKey (to_string_val (get_prop u "id")))
                  GitHubCallback.linkingUserKey
                = Some (to_string_val (get_prop u "id"))).
  { unfold getItem, setItem. apply lookup_insert_eq. }
  repeat split; try assumption.
  - intros ->.
    rewrite after_checks.
    + unfold GitHubCallback.linkGitHubAccount, run_of. repeat case_match; reflexivity.
    + unfold passes_checks. cbn [GitHubCallback.error_param GitHubCallback.code
                                  GitHubCallback.state truthy_item].
      rewrite Hst, Hli. cbn [truthy_item].
      repeat split; try reflexivity.
      * destruct (String.eqb_spec c EmptyString); [congruence | reflexivity].
      * destruct (String.eqb_spec (to_string_val (get_prop data "state")) EmptyString);
          [congruence | reflexivity].
      * destruct (String.eqb_spec (to_string_val (get_prop u "id")) EmptyString);
          [congruence | reflexivity].
  - intros Hne. apply without_checks. intros (_ & _ & _ & Heq & _).
    rewrite Hst in Heq. cbn [GitHubCallback.state] in Heq. congruence.
Qed.

(** ** The callers in App.jsx *)

Section AppProperties.

Variable Date_parse : string -> option Z.

(** [checkAuthStatus] ends initialisation in one of three states: signed in
    on the jobs screen, with the user data rebuilt from the snapshot that
    [getUser()] returns after the run; on the login screen with no request
    made and [localStorage] untouched, when no token or no usable snapshot
    was found; or on the login screen with the three session keys removed.
    It never signs in without a usable snapshot in the store. *)
Theorem checkAuthStatus_restores_or_clears (s : App.State) (env : SessionManager.RunEnv) :
  let s' := fst (App.checkAuthStatus Date_parse s env) in
  let made := snd (App.checkAuthStatus Date_parse s env) in
  let ls := App.local_storage s in
  App.initializing s' = false /\
  App.toast s' = App.toast s /\
  ((App.isAuthenticated s' = true /\ App.currentScreen s' = App.jobs /\
    App.local_storage s'
    = SessionManager.store (SessionManager.checkAndRefreshSession Date_parse ls env) /\
    exists u, SessionManager.getUser (App.local_storage s') = Some u /\
              App.userData s' = App.restoredUserData u) \/
   (App.isAuthenticated s' = false /\ App.currentScreen s' = App.login /\
    App.userData s' = App.userData s /\ made = [] /\ App.local_storage s' = ls /\
    (truthy_item (SessionManager.getToken ls) = false \/ SessionManager.getUser ls = None)) \/
   (App.isAuthenticated s' = false /\ App.currentScreen s' = App.login /\
    App.userData s' = App.userData s /\
    SessionManager.getToken (App.local_storage s') = None /\
    SessionManager.getUser (App.local_storage s') = None /\
    SessionManager.getExpiry (App.local_storage s') = None)).
Proof.
  cbv zeta. unfold App.checkAuthStatus.
  destruct (truthy_item (SessionManager.getToken (App.local_storage s))) eqn:Htok;
    cbn [negb orb fst snd];
    [| cbn; repeat split; right; left; repeat split; auto].
  destruct (SessionManager.getUser (App.local_storage s)) as [u0|] eqn:Hu0;
    [| cbn; repeat split; right; left; repeat split; auto].
  cbn [negb fst snd].
  assert (Hcleared : forall st,
            SessionManager.getToken (SessionManager.clearSession st) = None /\
            SessionManager.getUser (SessionManager.clearSession st) = None /\
            SessionManager.getExpiry (SessionManager.clearSession st) = None).
  { intros st. destruct (clearSession_empty st) as (Ht & Hu & He).
    repeat split; try assumption. now apply getUser_no_text. }
  destruct (SessionManager.verdict
              (SessionManager.checkAndRefreshSession Date_parse (App.local_storage s) env)).
  - destruct (SessionManager.getUser
                (SessionManager.store
                   (SessionManager.checkAndRefreshSession Date_parse (App.local_storage s) env)))
      as [u|] eqn:Hu; cbn [fst snd].
    + cbn. repeat split. left. repeat split. exists u. split; [exact Hu | reflexivity].
    + cbn. repeat split. right. right. repeat split; apply Hcleared.
  - cbn. repeat split. right. right. repeat split; apply Hcleared.
Qed.

(** A forced logout, from the five-minute poll or from the inactivity
    timer: when the run returns false both callbacks leave the same state,
    signed out on the login screen with blank user data and the session keys
    removed, and the toast left is the one [handleLogout] sets, which
    replaces the message naming the reason. *)
Theorem forced_logout_state (s : App.State) (env : SessionManager.RunEnv)
    (soon_at left_at : Z) :
  SessionManager.verdict
    (SessionManager.checkAndRefreshSession Date_parse (App.local_storage s) env) = false ->
  let s' := fst (App.sessionPoll Date_parse s env soon_at left_at) in
  fst (App.inactivityTimeout Date_parse s env) = s' /\
  App.isAuthenticated s' = false /\
  App.currentScreen s' = App.login /\
  App.userData s' = App.blankUserData /\
  App.toast s'
  = Some {| App.message := "Logged out successfully"; App.toast_type := "info" |} /\
  App.local_storage s'
  = SessionManager.clearSession
      (SessionManager.store
         (SessionManager.checkAndRefreshSession Date_parse (App.local_storage s) env)) /\
  SessionManager.getToken (App.local_storage s') = None /\
  SessionManager.getUser (App.local_storage s') = None /\
  SessionManager.getExpiry (App.local_storage s') = None.
Proof.
  intros Hv. cbv zeta. unfold App.sessionPoll, App.inactivityTimeout. rewrite Hv.
  cbn [negb fst App.handleLogout App.showToast App.isAuthenticated App.currentScreen
       App.userData App.toast App.local_storage App.initializing].
  destruct (clearSession_empty
              (SessionManager.store
                 (SessionManager.checkAndRefreshSession Date_parse (App.local_storage s) env)))
    as (Ht & Hu & He).
  repeat split; try assumption. now apply getUser_no_text.
Qed.

Definition warning_toast (minutes : Z) : App.Toast :=
  {| App.message := "Session expires in " +:+ string_of_Z minutes
                    +:+ " minutes! Activity will extend it.";
     App.toast_type := "error" |}.

Definition notice_toast (minutes : Z) : App.Toast :=
  {| App.message := "Session expires in " +:+ string_of_Z minutes +:+ " minutes";
     App.toast_type := "info" |}.

(** The one-minute watch only sets the toast.  With [m] minutes left it
    shows the error tier up to 5, the info tier from 6 to 15, and nothing
    above 15 or when the session is not expiring soon (an expiry that is not
    a date included).  A store with no expiry has 0 minutes left and gets the
    error tier. *)
Theorem expiryWarning_tiers (s : App.State) (soon_at left_at : Z) :
  let ls := App.local_storage s in
  let s' := App.expiryWarning Date_parse s soon_at left_at in
  App.local_storage s' = ls /\
  App.isAuthenticated s' = App.isAuthenticated s /\
  App.currentScreen s' = App.currentScreen s /\
  App.userData s' = App.userData s /\
  (SessionManager.isSessionExpiringSoon Date_parse ls soon_at = false -> s' = s) /\
  (SessionManager.getTimeUntilExpiry Date_parse ls left_at = NaN -> s' = s) /\
  (forall m, SessionManager.isSessionExpiringSoon Date_parse ls soon_at = true ->
     SessionManager.getTimeUntilExpiry Date_parse ls left_at = Num m ->
     (m <= 5 -> App.toast s' = Some (warning_toast m)) /\
     (5 < m <= 15 -> App.toast s' = Some (notice_toast m)) /\
     (15 < m -> s' = s)) /\
  (truthy_item (SessionManager.getExpiry ls) = false ->
   App.toast s' = Some (warning_toast 0)).
Proof.
  cbv zeta. unfold App.expiryWarning.
  assert (Hfields : forall msg ty,
            App.local_storage (App.showToast s msg ty) = App.local_storage s /\
            App.isAuthenticated (App.showToast s msg ty) = App.isAuthenticated s /\
            App.currentScreen (App.showToast s msg ty) = App.currentScreen s /\
            App.userData (App.showToast s msg ty) = App.userData s)
    by (intros; repeat split).
  destruct (SessionManager.isSessionExpiringSoon Date_parse (App.local_storage s) soon_at)
    eqn:Hsoon.
  - destruct (SessionManager.getTimeUntilExpiry Date_parse (App.local_storage s) left_at)
      as [|m] eqn:Hm; cbn [num_leb num_to_string].
    + repeat split; try discriminate.
      intros Hno. unfold SessionManager.getTimeUntilExpiry in Hm. rewrite Hno in Hm.
      discriminate.
    + assert (Hzero : truthy_item (SessionManager.getExpiry (App.local_storage s)) = false ->
                      m = 0).
      { intros Hno. unfold SessionManager.getTimeUntilExpiry in Hm. rewrite Hno in Hm.
        cbn in Hm. congruence. }
      destruct (Z.leb_spec m 5) as [H5|H5]; [| destruct (Z.leb_spec m 15) as [H15|H15]];
        (split; [first [apply Hfields | reflexivity] |]);
        (split; [first [apply Hfields | reflexivity] |]);
        (split; [first [apply Hfields | reflexivity] |]);
        (split; [first [apply Hfields | reflexivity] |]);
        (split; [discriminate |]); (split; [discriminate |]);
        (split; [intros m' _ [= <-]; repeat split; intros; (reflexivity || lia)
                | intros Hno; specialize (Hzero Hno); subst m; (reflexivity || lia)]).
  - repeat split; try discriminate.
    intros Hno. unfold SessionManager.isSessionExpiringSoon,
      SessionManager.getTimeUntilExpiry in Hsoon.
    rewrite Hno in Hsoon. discriminate.
Qed.

(** Activity in the last half hour of a valid session always asks for a
    refresh once the server confirms the session: the two-hour threshold of
    the run is met whenever the thirty-minute one of the listener is.
    Activity while the session is not expiring soon makes no request and
    changes nothing. *)
Theorem activity_near_expiry_refreshes (s : App.State) (soon_at : Z)
    (env : SessionManager.RunEnv) (status : Z) (data : json) :
  soon_at <= SessionManager.later env ->
  SessionManager.isSessionValid Date_parse (App.local_storage s) (SessionManager.now env)
  = true ->
  SessionManager.me_result env = Response status (Some data) ->
  ok status = true -> data <> JNull ->
  (SessionManager.isSessionExpiringSoon Date_parse (App.local_storage s) soon_at = true ->
   snd (App.handleActivity Date_parse s soon_at env) = [AuthMe; AuthRefresh]) /\
  (SessionManager.isSessionExpiringSoon Date_parse (App.local_storage s) soon_at = false ->
   App.handleActivity Date_parse s soon_at env = (s, [])).
Proof.
  intros Hclock Hv Hme Hok Hnull. unfold App.handleActivity. split; intros Hsoon;
    rewrite Hsoon; [| reflexivity].
  cbn [snd].
  destruct (confirmed_run Date_parse (App.local_storage s) env status data Hv Hme Hok Hnull)
    as (_ & _ & d & Hd & Hwithin).
  apply Hwithin.
  destruct (isSessionValid_true Date_parse _ _ Hv) as (_ & _ & Hexp & _).
  unfold SessionManager.isSessionExpiringSoon, SessionManager.getTimeUntilExpiry in Hsoon.
  rewrite Hexp, Hd in Hsoon. cbn [negb num_ltb] in Hsoon.
  apply Z.ltb_lt, floor_minutes_lt in Hsoon. lia.
Qed.

End AppProperties.

(** ** The further properties at the sample data *)

Lemma theme_not_session_key : ~ session_key "theme".
Proof. intros [H | [H | H]]; discriminate. Qed.

Lemma theme_not_handshake_key : ~ handshake_key "theme".
Proof. intros [H | H]; discriminate. Qed.

Lemma sample_storage_valid_late :
  SessionManager.isSessionValid iso_date_parse sample_storage sample_late = true.
Proof. vm_compute. reflexivity. Qed.

Lemma handshake_passes_checks : passes_checks (callback_with "c1" "s3cr3t") handshake.
Proof. repeat split; vm_compute; reflexivity. Qed.

Lemma exchange_and_link_asks : exchange_asks_to_link exchange_and_link.
Proof.
  eexists 200, _, _. repeat split; try reflexivity; discriminate.
Qed.

Lemma checkAndRefreshSession_frame_witness :
  getItem (SessionManager.store
             (SessionManager.checkAndRefreshSession iso_date_parse shared_storage server_up))
    "theme"
  = getItem shared_storage "theme".
Proof.
  exact (checkAndRefreshSession_frame iso_date_parse shared_storage server_up "theme"
           theme_not_session_key).
Defined.


Lemma confirmed_user_is_servers_witness :
  let r := SessionManager.checkAndRefreshSession iso_date_parse sample_storage refresh_down in
  SessionManager.verdict r = true /\
  SessionManager.getUser (SessionManager.store r) = Some sample_user.
Proof.
  apply (confirmed_user_is_servers iso_date_parse sample_storage refresh_down 200
           (JObj [("user", sample_user)]) sample_user);
    first [exact sample_storage_valid | reflexivity].
Defined.

Lemma confirmed_without_user_logs_out_witness :
  let r := SessionManager.checkAndRefreshSession iso_date_parse sample_storage
             no_user_in_answer in
  SessionManager.verdict r = true /\
  SessionManager.store r = SessionManager.updateUser sample_storage None /\
  SessionManager.getUser (SessionManager.store r) = None /\
  (forall t, SessionManager.isLoggedIn iso_date_parse (SessionManager.store r) t = false).
Proof.
  apply (confirmed_without_user_logs_out iso_date_parse sample_storage no_user_in_answer 200
           (JObj [("ok", JBool true)])).
  - exact sample_storage_valid.
  - reflexivity.
  - reflexivity.
  - discriminate.
  - intros j H. discriminate H.
  - reflexivity.
Defined.

Lemma refresh_success_replaces_session_witness :
  let r := SessionManager.checkAndRefreshSession iso_date_parse sample_storage server_up in
  SessionManager.verdict r = true /\
  SessionManager.calls r = [AuthMe; AuthRefresh] /\
  SessionManager.getToken (SessionManager.store r) = Some "t1" /\
  SessionManager.getUser (SessionManager.store r) = Some sample_user /\
  SessionManager.getExpiry (SessionManager.store r) = Some "2030-01-02T00:00:00Z" /\
  SessionManager.getAuthHeaders (SessionManager.store r)
  = [("Authorization", "Bearer " +:+ "t1"); ("Content-Type", "application/json")].
Proof.
  apply (refresh_success_replaces_session iso_date_parse sample_storage server_up 200 200
           (JObj [("user", sample_user)]) sample_user
           (JObj [("session", sample_session)]) sample_session
           "2030-01-01T01:30:00Z" "t1" "2030-01-02T00:00:00Z" 1893461400000);
    first [exact sample_storage_valid | reflexivity | discriminate].
Defined.

Lemma refresh_failure_is_swallowed_witness :
  let r := SessionManager.checkAndRefreshSession iso_date_parse sample_storage refresh_down in
  SessionManager.verdict r = true /\
  SessionManager.store r = SessionManager.updateUser sample_storage (Some sample_user) /\
  SessionManager.getToken (SessionManager.store r) = SessionManager.getToken sample_storage /\
  SessionManager.getExpiry (SessionManager.store r)
  = SessionManager.getExpiry sample_storage.
Proof.
  apply (refresh_failure_is_swallowed iso_date_parse sample_storage refresh_down 200
           (JObj [("user", sample_user)])).
  - exact sample_storage_valid.
  - reflexivity.
  - reflexivity.
  - discriminate.
  - left. reflexivity.
Defined.

Lemma session_only_ages_witness :
  (SessionManager.isSessionValid iso_date_parse sample_storage sample_late = true ->
   SessionManager.isSessionValid iso_date_parse sample_storage sample_now = true) /\
  (forall m m',
     SessionManager.getTimeUntilExpiry iso_date_parse sample_storage sample_now = Num m ->
     SessionManager.getTimeUntilExpiry iso_date_parse sample_storage sample_late = Num m' ->
     m' <= m) /\
  (SessionManager.isSessionExpiringSoon iso_date_parse sample_storage sample_now = true ->
   SessionManager.isSessionExpiringSoon iso_date_parse sample_storage sample_late = true).
Proof.
  apply (session_only_ages iso_date_parse sample_storage sample_now sample_late).
  vm_compute. discriminate.
Defined.

Lemma updateUser_replaces_snapshot_witness :
  let st' := SessionManager.updateUser sample_storage (Some sample_user) in
  SessionManager.getUser st' = Some sample_user /\
  SessionManager.getToken st' = SessionManager.getToken sample_storage /\
  SessionManager.getExpiry st' = SessionManager.getExpiry sample_storage /\
  (forall t, SessionManager.isSessionValid iso_date_parse sample_storage t = true ->
             SessionManager.isSessionValid iso_date_parse st' t = true).
Proof.
  apply (updateUser_replaces_snapshot iso_date_parse sample_storage sample_user);
    reflexivity.
Defined.

Lemma link_answer_decides_witness :
  GitHubCallback.handleGitHubCallback (callback_with "c1" "s3cr3t") handshake
    exchange_and_link
  = run_of [GitHubCallback.linking; GitHubCallback.success] (GitHubCallback.cleanUp handshake)
      [GithubCallbackExchange; GithubLink] true.
Proof.
  apply (link_answer_decides (callback_with "c1" "s3cr3t") handshake exchange_and_link
           handshake_passes_checks exchange_and_link_asks).
  eexists 200, _. split; reflexivity.
Defined.

Lemma already_linked_skips_link_witness :
  GitHubCallback.handleGitHubCallback (callback_with "c1" "s3cr3t") handshake
    exchange_already_linked
  = run_of [GitHubCallback.success] (GitHubCallback.cleanUp handshake)
      [GithubCallbackExchange] true.
Proof.
  apply (already_linked_skips_link (callback_with "c1" "s3cr3t") handshake
           exchange_already_linked 200 (JObj [("github_linked", JBool true)])
           handshake_passes_checks);
    reflexivity.
Defined.

Lemma callback_frame_witness :
  let ss : Storage := <["theme" := "dark"]> handshake in
  getItem (GitHubCallback.session_storage
             (GitHubCallback.handleGitHubCallback (callback_with "c1" "s3cr3t") ss
                exchange_and_link)) "theme"
  = getItem ss "theme" /\
  getItem (GitHubCallback.handleRetry ss) "theme" = getItem ss "theme" /\
  GitHubCallback.handleRetry (GitHubCallback.handleRetry ss) = GitHubCallback.handleRetry ss.
Proof.
  exact (callback_frame (callback_with "c1" "s3cr3t") (<["theme" := "dark"]> handshake)
           exchange_and_link "theme" theme_not_handshake_key).
Defined.

Lemma started_handshake_is_accepted_witness :
  let out := GitHubIntegration.initiateGitHubLogin ∅ (Some sample_user)
               (Response 200 (Some login_answer)) in
  let ss' := GitHubIntegration.session_storage out in
  GitHubIntegration.redirect_to out = Some "https://github.com/login/oauth/authorize" /\
  getItem ss' GitHubCallback.stateKey = Some "s3cr3t" /\
  getItem ss' GitHubCallback.linkingUserKey = Some "7" /\
  forall c s env,
    c <> EmptyString ->
    let r := GitHubCallback.handleGitHubCallback
               {| GitHubCallback.code := Some c; GitHubCallback.state := Some s;
                  GitHubCallback.error_param := None |} ss' env in
    (s = "s3cr3t" -> called GithubCallbackExchange (GitHubCallback.calls r) = true) /\
    (s <> "s3cr3t" -> r = run_of [GitHubCallback.error] ss' [] false).
Proof.
  apply (started_handshake_is_accepted ∅ sample_user login_answer 200);
    first [reflexivity | discriminate].
Defined.

Lemma forced_logout_state_witness :
  let s' := fst (App.sessionPoll iso_date_parse signed_in unauthorized sample_now sample_now) in
  fst (App.inactivityTimeout iso_date_parse signed_in unauthorized) = s' /\
  App.isAuthenticated s' = false /\
  App.currentScreen s' = App.login /\
  App.userData s' = App.blankUserData /\
  App.toast s'
  = Some {| App.message := "Logged out successfully"; App.toast_type := "info" |} /\
  App.local_storage s'
  = SessionManager.clearSession
      (SessionManager.store
         (SessionManager.checkAndRefreshSession iso_date_parse
            (App.local_storage signed_in) unauthorized)) /\
  SessionManager.getToken (App.local_storage s') = None /\
  SessionManager.getUser (App.local_storage s') = None /\
  SessionManager.getExpiry (App.local_storage s') = None.
Proof.
  apply (forced_logout_state iso_date_parse signed_in unauthorized sample_now sample_now).
  vm_compute. reflexivity.
Defined.

Lemma activity_near_expiry_refreshes_witness :
  snd (App.handleActivity iso_date_parse signed_in sample_late server_up_late)
  = [AuthMe; AuthRefresh].
Proof.
  apply (activity_near_expiry_refreshes iso_date_parse signed_in sample_late server_up_late
           200 (JObj [("user", sample_user)])).
  - cbn. lia.
  - exact sample_storage_valid_late.
  - reflexivity.
  - reflexivity.
  - discriminate.
  - vm_compute. reflexivity.
Defined.
